(** * Exp.js of xdl: manifests, scaffolding, recent projects, derived identifiers

    A shallow embedding of [src/dev/xdl/src/Exp.js].  JavaScript values are an
    inductive type with the language's truthiness and property access; the
    local file system is a finite map from paths to nodes; code that awaits
    I/O is written in a state-and-exception monad over an explicit [World];
    libraries and remote services the file merely calls are fields of a
    [Platform] record. *)

From Stdlib Require Import ZArith Lia.
From stdpp Require Import base option list strings pretty gmap.

Local Open Scope string_scope.
Local Open Scope Z_scope.

#[local] Set Warnings "-register-all".

(** ** JavaScript values *)

(** What [JSON.parse] can produce, plus [undefined].  The code never does
    arithmetic: a number is only tested for truthiness or printed, so its
    payload is kept as an integer (a fraction behaves as any number other
    than zero; the NaN of JSON5 is left out). *)
Inductive value : Type :=
| VUndefined
| VNull
| VBool (b : bool)
| VNum (n : Z)
| VStr (s : string)
| VArr (items : list value)
| VObj (fields : list (string * value)).

Inductive ErrorCode := INVALID_OPTIONS | DIRECTORY_ALREADY_EXISTS.

(** Exceptions (promise rejections). *)
Inductive exn : Type :=
| TypeError                                  (* member access on undefined or null *)
| Error (message : string)                   (* new Error(message) *)
| XDLError (code : ErrorCode) (message : string)
| External (what : string).                  (* raised by a library or a service *)

Inductive outcome (A : Type) : Type :=
| Return (a : A)
| Throw (e : exn).
Arguments Return {A} a.
Arguments Throw {A} e.

(** What a library or a service answers: a result, or a failure of its own. *)
Inductive reply (A : Type) : Type :=
| Ok (a : A)
| Failed (what : string).
Arguments Ok {A} a.
Arguments Failed {A} what.

Definition of_reply {A} (r : reply A) : outcome A :=
  match r with
  | Ok a => Return a
  | Failed what => Throw (External what)
  end.

#[global] Instance ErrorCode_eq_dec : EqDecision ErrorCode.
Proof. solve_decision. Defined.
#[global] Instance exn_eq_dec : EqDecision exn.
Proof. solve_decision. Defined.

#[global] Instance outcome_ret : MRet outcome := @Return.
#[global] Instance outcome_bind : MBind outcome := fun A B f m =>
  match m with
  | Return a => f a
  | Throw e => Throw e
  end.

(** [!v] is [negb (truthy v)]. *)
Definition truthy (v : value) : bool :=
  match v with
  | VUndefined | VNull => false
  | VBool b => b
  | VNum n => negb (n =? 0)
  | VStr s => negb (String.eqb s EmptyString)
  | VArr _ | VObj _ => true
  end.

Definition nullish (v : value) : bool :=
  match v with
  | VUndefined | VNull => true
  | _ => false
  end.

Fixpoint assoc (k : string) (fields : list (string * value)) : option value :=
  match fields with
  | [] => None
  | (k', v) :: rest => if String.eqb k k' then Some v else assoc k rest
  end.

(** [prop v k] is the value of [v.k] wherever that expression does not throw.
    None of the names read in Exp.js ([exp], [main], [name], [slug],
    [version], [sdkVersion], [entryPoint], [starterApps], [urlRandomness],
    and [default], the one template name the file asks for) is defined on a
    built-in prototype, so only own fields of objects count. *)
Definition prop (v : value) (k : string) : value :=
  match v with
  | VObj fields => default VUndefined (assoc k fields)
  | _ => VUndefined
  end.

(** [v.k] as evaluated: a TypeError on undefined and null. *)
Definition member (v : value) (k : string) : outcome value :=
  if nullish v then Throw TypeError else Return (prop v k).

(** [a || b] *)
Definition js_or (a b : value) : value := if truthy a then a else b.

(** String conversion, as in a template literal. *)
Fixpoint ToString (v : value) : string :=
  match v with
  | VUndefined => "undefined"
  | VNull => "null"
  | VBool true => "true"
  | VBool false => "false"
  | VNum n => pretty n
  | VStr s => s
  | VArr items =>
      (fix join (l : list value) : string :=
         match l with
         | [] => EmptyString
         | x :: rest =>
             (if nullish x then EmptyString else ToString x) +:+
             match rest with
             | [] => EmptyString
             | _ => "," +:+ join rest
             end
         end) items
  | VObj _ => "[object Object]"
  end.

(** [obj[k] = v] on the fields of a plain object: an existing field keeps its
    place, a new one goes last. *)
Fixpoint set_field (k : string) (v : value) (fields : list (string * value))
  : list (string * value) :=
  match fields with
  | [] => [(k, v)]
  | (k', v') :: rest =>
      if String.eqb k k' then (k, v) :: rest else (k', v') :: set_field k v rest
  end.

(** [Object.assign(target, source)]: every field of a source object is set on
    the target, in order; a source that is not an object adds nothing (the
    indexed characters of a string source are not modelled); undefined and
    null targets are a TypeError.  A target that is an array or a primitive
    is returned as it is: the fields that JavaScript would hang on it are
    not printed by [JSON.stringify], and they are not kept here. *)
Definition Object_assign (target source : value) : outcome value :=
  match target, source with
  | VUndefined, _ | VNull, _ => Throw TypeError
  | VObj t, VObj s => Return (VObj (fold_left (fun acc kv => set_field kv.1 kv.2 acc) s t))
  | _, _ => Return target
  end.

(** ** The local file system *)

Inductive node := Dir | File (body : string).

Abbreviation files := (gmap string node).

(** A [JsonFile] object: a path and the [json5] option. *)
Record JsonFile := mkJsonFile { file : string; json5 : bool }.

(** ** Libraries and services that Exp.js calls

    None of them is code of Exp.js; each is taken as given. *)
Record Platform := {
  (* Node's path module *)
  path_join : string -> string -> string;
  path_resolve : string -> string;
  (* the parsers and the printer behind @exponent/json-file *)
  JSON_parse : string -> option value;
  JSON5_parse : string -> option value;
  JSON_stringify : value -> string;
  (* String.prototype.replace with a regular expression of a literal text:
     [true] for the /g flag *)
  String_replace : bool -> string -> string -> string -> string;
  (* UserSettings.dotExponentHomeDirectory() *)
  dotExponentHomeDirectory : string;
  (* Api.versionsAsync() *)
  Api_versionsAsync : reply value;
  (* new download().get(url).dest(dir).promise.run() *)
  download_run : string -> string -> files -> reply unit * files;
  (* spawnAsync('tar', ['-xvf', archive, '-C', dir], ...) *)
  spawn_tar : string -> string -> files -> reply unit * files;
  (* targz().extract(archive, dir) *)
  targz_extract : string -> string -> files -> reply unit * files;
  (* User.getUsernameAsync() *)
  User_getUsernameAsync : reply value;
  (* UrlUtils.constructPublishUrlAsync(root, entryPoint) *)
  UrlUtils_constructPublishUrlAsync : string -> value -> reply value;
  (* UrlUtils.someRandomness(): the result of the n-th draw of the process *)
  UrlUtils_someRandomness : nat -> value;
  (* UrlUtils.randomIdentifierForLoggedOutUser(), likewise *)
  UrlUtils_randomIdentifierForLoggedOutUser : nat -> value;
}.

(** ** Reading manifests *)

Section Manifests.
Context (P : Platform).

(** [fs.readFile(path, 'utf8')] *)
Definition readFile (path : string) (fs : files) : outcome string :=
  match fs !! path with
  | Some (File body) => Return body
  | Some Dir => Throw (External "EISDIR")
  | None => Throw (External "ENOENT")
  end.

(** [jsonFile.readAsync()]: read the text, then parse it; both can fail. *)
Definition readAsync (f : JsonFile) (fs : files) : outcome value :=
  text ← readFile (file f) fs;
  match (if json5 f then JSON5_parse P else JSON_parse P) text with
  | Some v => Return v
  | None => Throw (External "JsonFileError")
  end.

Definition packageJsonForRoot (root : string) : JsonFile :=
  mkJsonFile (path_join P root "package.json") false.

Definition expJsonForRoot (root : string) : JsonFile :=
  mkJsonFile (path_join P root "exp.json") true.

(** The block that opens both [expConfigForRootAsync] and the manifest part
    of [getPublishInfoAsync]; [pkg] and [exp] start out undefined:
<<
    try {
      pkg = await packageJsonForRoot(root).readAsync();
      exp = await expJsonForRoot(root).readAsync();
    } catch (e) { }
>> *)
Definition read_pkg_exp (root : string) (fs : files) : value * value :=
  match readAsync (packageJsonForRoot root) fs with
  | Throw _ => (VUndefined, VUndefined)
  | Return pkg =>
      match readAsync (expJsonForRoot root) fs with
      | Throw _ => (pkg, VUndefined)
      | Return exp => (pkg, exp)
      end
  end.

Definition expConfigForRootAsync (root : string) (fs : files) : outcome value :=
  let '(pkg, exp) := read_pkg_exp root fs in
  (* if (!exp && pkg) { exp = pkg.exp; } *)
  exp ← (if negb (truthy exp) && truthy pkg
         then member pkg "exp"
         else Return exp);
  Return exp.

Definition determineEntryPointAsync (root : string) (fs : files) : outcome value :=
  exp ← expConfigForRootAsync root fs;
  let pkgJson := packageJsonForRoot root in
  pkg ← readAsync pkgJson fs;
  main ← member pkg "main";
  let entryPoint := js_or main (VStr "index.js") in
  (* exp && exp.entryPoint *)
  cond ← (if truthy exp then member exp "entryPoint" else Return exp);
  if truthy cond then member exp "entryPoint" else Return entryPoint.

(** ** The publish descriptor *)

Record PublishArgs := {
  username : value;
  localPackageName : value;
  packageVersion : value;
  remoteUsername : value;
  remotePackageName : value;
  remoteFullPackageName : string;
  ngrokUrl : value;
  sdkVersion : value;
}.

Record PublishInfo := { args : PublishArgs; body : value }.

Definition cant_get_username : exn := Error "Can't get username!".
Definition sdkVersion_missing : exn :=
  Error "exp.sdkVersion is missing from package.json file".
Definition cant_get_name : exn := Error "Can't get name of package.".
Definition cant_get_version : exn := Error "Can't get version of package.".

(** What [getPublishInfoAsync] has in [pkg], [exp], [name] and [version] when
    it reaches its checks (lines 247 to 267). *)
Definition publish_sources (root : string) (fs : files)
  : outcome (value * value * value * value) :=
  let '(pkg, exp) := read_pkg_exp root fs in
  (* !exp && pkg && pkg.exp *)
  legacy ← (if negb (truthy exp) && truthy pkg
            then embedded ← member pkg "exp"; Return (truthy embedded)
            else Return false);
  if legacy : bool then
    exp ← member pkg "exp";
    name ← member pkg "name";
    version ← member pkg "version";
    Return (pkg, exp, name, version)
  else if truthy exp && truthy pkg then
    name ← member exp "slug";
    pkg_version ← member pkg "version";
    (* pkg.version || exp.version *)
    version ← (if truthy pkg_version then Return pkg_version
               else member exp "version");
    Return (pkg, exp, name, version)
  else
    Return (pkg, exp, VUndefined, VUndefined).

Definition getPublishInfoAsync (root : string) (fs : files) : outcome PublishInfo :=
  username ← of_reply (User_getUsernameAsync P);
  if negb (truthy username) then Throw cant_get_username else
  '(pkg, exp, name, version) ← publish_sources root fs;
  (* !exp || !exp.sdkVersion *)
  no_sdk ← (if negb (truthy exp) then Return true
            else sdk ← member exp "sdkVersion"; Return (negb (truthy sdk)));
  if no_sdk : bool then Throw sdkVersion_missing else
  if negb (truthy name) then Throw cant_get_name else
  if negb (truthy version) then Throw cant_get_version else
  let remotePackageName := name in
  let remoteUsername := username in
  let remoteFullPackageName :=
    "@" +:+ ToString remoteUsername +:+ "/" +:+ ToString remotePackageName in
  let localPackageName := name in
  let packageVersion := version in
  sdkVersion ← member exp "sdkVersion";
  entryPoint ← determineEntryPointAsync root fs;
  ngrokUrl ← of_reply (UrlUtils_constructPublishUrlAsync P root entryPoint);
  Return {| args := {| username := username;
                       localPackageName := localPackageName;
                       packageVersion := packageVersion;
                       remoteUsername := remoteUsername;
                       remotePackageName := remotePackageName;
                       remoteFullPackageName := remoteFullPackageName;
                       ngrokUrl := ngrokUrl;
                       sdkVersion := sdkVersion |};
            body := pkg |}.

End Manifests.

(** ** The world that the effectful functions run in *)

(** What an observer of the process sees, in order. *)
Inductive event :=
| Notified (message : string)              (* Logger.notifications.info *)
| MadeDir (dir : string)                   (* a directory created by mkdirp *)
| WroteFile (path body : string)           (* a file written *)
| Downloaded (url dest : string)           (* the downloader was run *)
| SpawnedTar (archive dir : string)        (* the tar process was spawned *)
| TargzExtracted (archive dir : string).   (* the tar.gz library was run *)

(** A call of [ProjectSettings.setAsync(root, {key: v})] that was started
    and whose promise nobody awaits. *)
Record pending_set := mkPending { p_root : string; p_key : string; p_value : value }.

Record World := mkWorld {
  disk : files;
  (* UserSettings.recentExpsJsonFile(): None when it cannot be read *)
  recent_exps_store : option (list string);
  (* the store behind UserSettings.getAsync / setAsync *)
  user_settings : gmap string value;
  (* the store behind ProjectSettings, per project root *)
  project_settings : gmap string (gmap string value);
  in_flight : list pending_set;
  (* how many random identifiers the process has drawn *)
  draws : nat;
  log : list event;
}.

Definition set_disk (d : files) (w : World) : World :=
  mkWorld d (recent_exps_store w) (user_settings w) (project_settings w)
          (in_flight w) (draws w) (log w).
Definition set_recent_exps_store (r : option (list string)) (w : World) : World :=
  mkWorld (disk w) r (user_settings w) (project_settings w)
          (in_flight w) (draws w) (log w).
Definition set_user_settings (u : gmap string value) (w : World) : World :=
  mkWorld (disk w) (recent_exps_store w) u (project_settings w)
          (in_flight w) (draws w) (log w).
Definition set_project_settings (ps : gmap string (gmap string value)) (w : World) : World :=
  mkWorld (disk w) (recent_exps_store w) (user_settings w) ps
          (in_flight w) (draws w) (log w).
Definition set_in_flight (q : list pending_set) (w : World) : World :=
  mkWorld (disk w) (recent_exps_store w) (user_settings w) (project_settings w)
          q (draws w) (log w).
Definition set_draws (n : nat) (w : World) : World :=
  mkWorld (disk w) (recent_exps_store w) (user_settings w) (project_settings w)
          (in_flight w) n (log w).
Definition set_log (l : list event) (w : World) : World :=
  mkWorld (disk w) (recent_exps_store w) (user_settings w) (project_settings w)
          (in_flight w) (draws w) l.

(** An async function body: it may change the world and then returns or
    throws; what it changed before throwing stays changed. *)
Definition M (A : Type) : Type := World -> outcome A * World.

#[global] Instance M_ret : MRet M := fun A a w => (Return a, w).
#[global] Instance M_bind : MBind M := fun A B f m w =>
  match m w with
  | (Return a, w') => f a w'
  | (Throw e, w') => (Throw e, w')
  end.

Definition throw {A} (e : exn) : M A := fun w => (Throw e, w).
Definition lift {A} (o : outcome A) : M A := fun w => (o, w).

(** [try { body } catch (e) { handler }] *)
Definition try_catch {A} (body : M A) (handler : exn -> M A) : M A := fun w =>
  match body w with
  | (Return a, w') => (Return a, w')
  | (Throw e, w') => handler e w'
  end.

Definition read_disk {A} (f : files -> outcome A) : M A := fun w => (f (disk w), w).
Definition emit (ev : event) : M unit := fun w => (Return (), set_log (log w ++ [ev]) w).

(** [fs.statSync(path)]: throws when nothing is there. *)
Definition fs_statSync (path : string) : M unit := fun w =>
  match disk w !! path with
  | Some _ => (Return (), w)
  | None => (Throw (External "ENOENT"), w)
  end.

Definition existsAsync (path : string) : M bool := fun w =>
  (Return (bool_decide (is_Some (disk w !! path))), w).

(** [mkdirp]: nothing to do on a directory, an error on a file, and a new
    directory otherwise (parent directories are not tracked). *)
Definition mkdirp (dir : string) : M unit := fun w =>
  match disk w !! dir with
  | Some Dir => (Return (), w)
  | Some (File _) => (Throw (External "EEXIST"), w)
  | None => (Return (), set_disk (<[dir := Dir]> (disk w)) (set_log (log w ++ [MadeDir dir]) w))
  end.

(** [fs.writeFile(path, body, 'utf8')] *)
Definition fs_writeFile (path body : string) : M unit := fun w =>
  match disk w !! path with
  | Some Dir => (Throw (External "EISDIR"), w)
  | _ => (Return (),
          set_disk (<[path := File body]> (disk w))
                   (set_log (log w ++ [WroteFile path body]) w))
  end.

(** A library or a process that works on the disk: the call is logged, then
    it does whatever it does. *)
Definition external (ev : event) (op : files -> reply unit * files) : M unit := fun w =>
  let '(r, d) := op (disk w) in
  (of_reply r, set_disk d (set_log (log w ++ [ev]) w)).

(** Modelled from the spec: the settings store of UserSettings.js and
    ProjectSettings.js, which are not part of the sources at hand: "a flat
    key→value mapping persisted by the same external settings-store
    collaborator", read with a default for an absent key. *)
Definition UserSettings_getAsync (key : string) (dflt : value) : M value := fun w =>
  (Return (default dflt (user_settings w !! key)), w).

Definition UserSettings_setAsync (key : string) (v : value) : M unit := fun w =>
  (Return (), set_user_settings (<[key := v]> (user_settings w)) w).

(** Modelled from the spec: the recency store, "an ordered sequence of
    absolute path strings ... consumed here only as sequence of strings";
    [readAsync({cantReadFileDefault: dflt})] yields [dflt] when the store
    cannot be read. *)
Definition recentExps_readAsync (dflt : list string) : M (list string) := fun w =>
  (Return (default dflt (recent_exps_store w)), w).

Definition recentExps_writeAsync (l : list string) : M (list string) := fun w =>
  (Return l, set_recent_exps_store (Some l) w).

(** Modelled from the spec: [ProjectSettings.readAsync(root)], the settings
    of one project as a flat map, empty when nothing was stored. *)
Definition ProjectSettings_readAsync (root : string) : M (gmap string value) := fun w =>
  (Return (default ∅ (project_settings w !! root)), w).

(** [ProjectSettings.setAsync(root, {key: v})] as a statement of its own,
    without [await]: the call starts the write and the caller goes on; the
    store changes when the write lands, see [land]. *)
Definition ProjectSettings_setAsync_started (root key : string) (v : value) : M unit := fun w =>
  (Return (), set_in_flight (in_flight w ++ [mkPending root key v]) w).

Definition apply_set (ps : gmap string (gmap string value)) (p : pending_set)
  : gmap string (gmap string value) :=
  <[p_root p := <[p_key p := p_value p]> (default ∅ (ps !! p_root p))]> ps.

(** The writes in flight reach the store. *)
Definition land (w : World) : World :=
  set_in_flight [] (set_project_settings (fold_left apply_set (in_flight w) (project_settings w)) w).

(** ** Scaffolding a project *)

Definition exn_toString (e : exn) : string :=
  match e with
  | TypeError => "TypeError"
  | Error m => "Error: " +:+ m
  | XDLError _ m => "Error: " +:+ m
  | External what => what
  end.

(** [joi.object().keys({name: joi.string().required()})] with joi's defaults:
    an undefined value passes, any other value must be an object whose only
    key is [name], bound to a non-empty string. *)
Definition joi_validate_opts (opts : value) : outcome unit :=
  match opts with
  | VUndefined => Return ()
  | VObj fields =>
      match assoc "name" fields with
      | None | Some VUndefined => Throw (External "ValidationError: name is required")
      | Some (VStr s) =>
          if String.eqb s EmptyString
          then Throw (External "ValidationError: name is not allowed to be empty")
          else if forallb (fun kv => String.eqb kv.1 "name") fields
               then Return ()
               else Throw (External "ValidationError: key is not allowed")
      | Some _ => Throw (External "ValidationError: name must be a string")
      end
  | _ => Throw (External "ValidationError: value must be an object")
  end.

Definition dquote : string := String (Ascii.ascii_of_nat 34) EmptyString.

Definition directory_exists_message (root : string) : string :=
  "That directory already exists. Please choose a different parent directory or project name. ("
  +:+ root +:+ ")".

Section Scaffold.
Context (P : Platform).

Definition _starterAppCacheDirectory : M string :=
  let dotExponentHomeDirectory := dotExponentHomeDirectory P in
  let dir := path_join P dotExponentHomeDirectory "starter-app-cache" in
  mkdirp dir;;
  mret dir.

Definition starterApp_filename (name : string) (starterAppVersion : value) : string :=
  name +:+ "-" +:+ ToString starterAppVersion +:+ ".tar.gz".

Definition _downloadStarterAppAsync (name : string) : M string :=
  versions ← lift (of_reply (Api_versionsAsync P));
  starterApps ← lift (member versions "starterApps");
  app ← lift (member starterApps name);
  starterAppVersion ← lift (member app "version");
  let filename := starterApp_filename name starterAppVersion in
  cacheDir ← _starterAppCacheDirectory;
  let starterAppPath := path_join P cacheDir filename in
  found ← existsAsync starterAppPath;
  if found : bool then mret starterAppPath else
  let url := "https://s3.amazonaws.com/exp-starter-apps/" +:+ filename in
  dest ← _starterAppCacheDirectory;
  external (Downloaded url dest) (download_run P url dest);;
  mret starterAppPath.

Definition _extract (archive dir : string) : M unit :=
  try_catch
    (external (SpawnedTar archive dir) (spawn_tar P archive dir))
    (fun _ => external (TargzExtracted archive dir) (targz_extract P archive dir)).

Definition JsonFile_writeAsync (f : JsonFile) (data : value) : M unit :=
  fs_writeFile (file f) (JSON_stringify P data).

Definition createNewExpAsync (selectedDir : string) (extraPackageJsonFields opts : value)
  : M string :=
  (* Validate *)
  try_catch (lift (joi_validate_opts opts))
            (fun e => throw (XDLError INVALID_OPTIONS (exn_toString e)));;
  name ← lift (member opts "name");
  match name with
  | VStr name =>
      let root := path_join P selectedDir name in
      fileExists ← try_catch (fs_statSync root;; mret true) (fun _ => mret false);
      if fileExists : bool
      then throw (XDLError DIRECTORY_ALREADY_EXISTS (directory_exists_message root))
      else
        (* Download files *)
        mkdirp root;;
        emit (Notified "Downloading project files...");;
        starterAppPath ← _downloadStarterAppAsync "default";
        (* Extract files *)
        emit (Notified "Extracting project files...");;
        _extract starterAppPath root;;
        (* Update files *)
        emit (Notified "Customizing project...");;
        author ← UserSettings_getAsync "email" VNull;
        let packageJsonFile := mkJsonFile (path_join P root "package.json") false in
        packageJson ← read_disk (readAsync P packageJsonFile);
        packageJson ← lift (Object_assign packageJson extraPackageJsonFields);
        data ← lift (Object_assign packageJson
                       (VObj [("name", VStr name); ("version", VStr "0.0.0");
                              ("description", VStr "Hello Exponent!");
                              ("author", author)]));
        JsonFile_writeAsync packageJsonFile data;;
        (* Custom code for replacing __NAME__ in main.js *)
        mainJs ← read_disk (readFile (path_join P root "main.js"));
        let customMainJs :=
          String_replace P true "__NAME__" (ToString (prop data "name")) mainJs in
        fs_writeFile (path_join P root "main.js") customMainJs;;
        (* Update exp.json *)
        expJson ← read_disk (readFile (path_join P root "exp.json"));
        let quoted := dquote +:+ ToString (prop data "name") +:+ dquote in
        let customExpJson :=
          String_replace P false (dquote +:+ "my-new-project" +:+ dquote) quoted
            (String_replace P false (dquote +:+ "My New Project" +:+ dquote) quoted expJson) in
        fs_writeFile (path_join P root "exp.json") customExpJson;;
        mret root
  | _ => throw TypeError   (* path.join rejects an argument that is no string *)
  end.

(** ** Recent projects *)

Definition saveRecentExpRootAsync (root : string) : M (list string) :=
  let root := path_resolve P root in
  (* Write the recent Exps JSON file *)
  recentExps ← recentExps_readAsync [];
  (* Filter out copies of this so we don't get dupes in this list *)
  let recentExps := filter (fun x => x ≠ root) recentExps in
  let recentExps := root :: recentExps in
  recentExps_writeAsync (take 100 recentExps).

(** ** Identifiers that are generated once *)

Definition someRandomness : M value := fun w =>
  (Return (UrlUtils_someRandomness P (draws w)), set_draws (S (draws w)) w).

Definition randomIdentifierForLoggedOutUser : M value := fun w =>
  (Return (UrlUtils_randomIdentifierForLoggedOutUser P (draws w)), set_draws (S (draws w)) w).

Definition getProjectRandomnessAsync (projectRoot : string) : M value :=
  ps ← ProjectSettings_readAsync projectRoot;
  let randomness := default VUndefined (ps !! "urlRandomness") in
  if negb (truthy randomness) then
    randomness ← someRandomness;
    ProjectSettings_setAsync_started projectRoot "urlRandomness" randomness;;
    mret randomness
  else mret randomness.

Definition getLoggedOutPlaceholderUsernameAsync : M value :=
  lpu ← UserSettings_getAsync "loggedOutPlaceholderUsername" VNull;
  if negb (truthy lpu) then
    lpu ← randomIdentifierForLoggedOutUser;
    UserSettings_setAsync "loggedOutPlaceholderUsername" lpu;;
    mret lpu
  else mret lpu.

End Scaffold.

(** ** Notions used in the statements *)

(** The resolved config as a pure function of what the try block left in
    [pkg] and [exp]. *)
Definition resolved (pkg exp : value) : value :=
  if negb (truthy exp) && truthy pkg then prop pkg "exp" else exp.

Inductive config_field := field_sdkVersion | field_name | field_version.

(** The failure that reports a field as missing. *)
Definition missing_error (f : config_field) : exn :=
  match f with
  | field_sdkVersion => sdkVersion_missing
  | field_name => cant_get_name
  | field_version => cant_get_version
  end.

(** The field that a failure reports, if it reports one. *)
Definition named_field (e : exn) : option config_field :=
  if decide (e = sdkVersion_missing) then Some field_sdkVersion
  else if decide (e = cant_get_name) then Some field_name
  else if decide (e = cant_get_version) then Some field_version
  else None.

Definition has_sdkVersion (cfg : value) : bool :=
  truthy cfg && truthy (prop cfg "sdkVersion").

(** The first of sdkVersion, name, version that is missing, given the config
    and the derived name and version. *)
Definition first_missing (cfg name version : value) : option config_field :=
  if negb (has_sdkVersion cfg) then Some field_sdkVersion
  else if negb (truthy name) then Some field_name
  else if negb (truthy version) then Some field_version
  else None.

(** [publish_sources] as a pure function of what the try block left in [pkg]
    and [exp]. *)
Definition derive (pkg exp : value) : value * value * value * value :=
  if negb (truthy exp) && truthy pkg && truthy (prop pkg "exp")
  then (pkg, prop pkg "exp", prop pkg "name", prop pkg "version")
  else if truthy exp && truthy pkg
  then (pkg, exp, prop exp "slug", js_or (prop pkg "version") (prop exp "version"))
  else (pkg, exp, VUndefined, VUndefined).

(** The rule for the version in the words of the claim: the generic
    manifest's version, else the resolved config's version. *)
Definition claimed_version (pkg cfg : value) : value :=
  js_or (prop pkg "version") (prop cfg "version").

(** The rule for the name in the words of the specification: the tool
    config's slug, or the generic manifest's name when the config was
    embedded legacy-style, that is, when no exp.json was read. *)
Definition claimed_name (pkg exp : value) : value :=
  if truthy exp then prop exp "slug" else prop pkg "name".

(** The first missing field by the rules of the specification, given what
    was read of package.json and of exp.json: the SDK version of the
    resolved config, then the name, then the version. *)
Definition claimed_first_missing (pkg exp : value) : option config_field :=
  first_missing (resolved pkg exp) (claimed_name pkg exp)
    (claimed_version pkg (resolved pkg exp)).

Fixpoint downloads (l : list event) : nat :=
  match l with
  | [] => 0
  | Downloaded _ _ :: rest => S (downloads rest)
  | _ :: rest => downloads rest
  end.

(** The version that the registry has for a template. *)
Definition registry_version (P : Platform) (name : string) : outcome value :=
  versions ← of_reply (Api_versionsAsync P);
  starterApps ← member versions "starterApps";
  app ← member starterApps name;
  member app "version".

Definition cache_dir (P : Platform) : string :=
  path_join P (dotExponentHomeDirectory P) "starter-app-cache".

(** Where the archive of a template is cached. *)
Definition cached_path (P : Platform) (name : string) (version : value) : string :=
  path_join P (cache_dir P) (starterApp_filename name version).

(** The cache directory can be made: no regular file is in its place. *)
Definition cache_dir_usable (P : Platform) (d : files) : Prop :=
  forall body, d !! cache_dir P <> Some (File body).

(** The world once [_starterAppCacheDirectory] has made sure of the cache
    directory. *)
Definition with_cache_dir (P : Platform) (w : World) : World :=
  (mkdirp (cache_dir P) w).2.

(** Two calls in sequence, each awaited. *)
Definition fetch_twice (P : Platform) (name : string) : M (string * string) :=
  first ← _downloadStarterAppAsync P name;
  second ← _downloadStarterAppAsync P name;
  mret (first, second).

(** What one call leaves in the store, as a function of the resolved path
    and of the list it found. *)
Definition remember (r : string) (l : list string) : list string :=
  take 100 (r :: filter (fun x => x ≠ r) l).

Definition remember_all (rs : list string) (l : list string) : list string :=
  fold_left (fun acc r => remember r acc) rs l.

(** Calls in sequence, each awaited. *)
Fixpoint save_all (P : Platform) (roots : list string) : M unit :=
  match roots with
  | [] => mret ()
  | root :: rest => saveRecentExpRootAsync P root;; save_all P rest
  end.

(** Two calls in sequence, each awaited, with nothing else in between. *)
Definition twice {A} (f : M A) : M (A * A) :=
  first ← f;
  second ← f;
  mret (first, second).

(** The same when the writes in flight land before the second call. *)
Definition twice_landed {A} (f : M A) : M (A * A) :=
  first ← f;
  (fun w => (Return (), land w));;
  second ← f;
  mret (first, second).

Definition stored_randomness (w : World) (projectRoot : string) : value :=
  default VUndefined (default ∅ (project_settings w !! projectRoot) !! "urlRandomness").

Definition stored_placeholder (w : World) : value :=
  default VNull (user_settings w !! "loggedOutPlaceholderUsername").

(** ** A small concrete platform, for worked examples *)

Fixpoint strip_prefix (prefix s : string) : string :=
  match prefix, s with
  | String _ prefix', String _ s' => strip_prefix prefix' s'
  | _, _ => s
  end.

(** Manifest texts of the examples and what they parse to. *)
Definition demo_documents : list (string * value) :=
  [ ("null", VNull);
    ("{}", VObj []);
    ("{name:'app', main:'app.js', exp:{sdkVersion:'7.0.0', version:'2.0.0', entryPoint:'legacy.js'}}",
     VObj [("name", VStr "app"); ("main", VStr "app.js");
           ("exp", VObj [("sdkVersion", VStr "7.0.0"); ("version", VStr "2.0.0");
                         ("entryPoint", VStr "legacy.js")])]);
    ("{name:'app', version:'1.0.0', main:'app.js'}",
     VObj [("name", VStr "app"); ("version", VStr "1.0.0"); ("main", VStr "app.js")]);
    ("{name:'app'}", VObj [("name", VStr "app")]);
    ("{slug:'my-app', sdkVersion:'8.0.0', version:'3.0.0', entryPoint:'main.js'}",
     VObj [("slug", VStr "my-app"); ("sdkVersion", VStr "8.0.0"); ("version", VStr "3.0.0");
           ("entryPoint", VStr "main.js")]);
    ("{slug:'my-app', version:'3.0.0'}",
     VObj [("slug", VStr "my-app"); ("version", VStr "3.0.0")]);
    ("{slug:'my-app', sdkVersion:'8.0.0'}",
     VObj [("slug", VStr "my-app"); ("sdkVersion", VStr "8.0.0")]) ].

Definition demo_registry : value :=
  VObj [("starterApps", VObj [("default", VObj [("version", VStr "1.0.0")])])].

Definition starter_apps_url : string := "https://s3.amazonaws.com/exp-starter-apps/".

(** Replacement of a literal text, of its first occurrence or of all, good
    enough for the examples (no dollar patterns in the replacement). *)
Fixpoint drop_chars (n : nat) (s : string) : string :=
  match n, s with
  | S n', String _ s' => drop_chars n' s'
  | _, _ => s
  end.

Fixpoint replace_literal (fuel : nat) (all : bool) (pat rep s : string) : string :=
  match fuel, s with
  | S fuel', String c s' =>
      if String.prefix pat s
      then rep +:+ (if all
                    then replace_literal fuel' all pat rep (drop_chars (String.length pat) s)
                    else drop_chars (String.length pat) s)
      else String c (replace_literal fuel' all pat rep s')
  | _, _ => s
  end.

(** A printer for the examples, in the notation of [demo_documents]. *)
Fixpoint render (v : value) : string :=
  match v with
  | VStr s => "'" +:+ s +:+ "'"
  | VObj fields =>
      "{" +:+
      (fix go (l : list (string * value)) : string :=
         match l with
         | [] => EmptyString
         | (k, x) :: rest =>
             k +:+ ":" +:+ render x +:+
             match rest with
             | [] => EmptyString
             | _ => ", " +:+ go rest
             end
         end) fields
      +:+ "}"
  | _ => ToString v
  end.

(** A platform whose tar is given: the examples need one that fails and one
    that unpacks a template. *)
Definition demo_with (tar : string -> string -> files -> reply unit * files) : Platform := {|
  path_join := fun a b => a +:+ "/" +:+ b;
  path_resolve := fun p => p;
  JSON_parse := fun text => assoc text demo_documents;
  JSON5_parse := fun text => assoc text demo_documents;
  JSON_stringify := render;
  String_replace := fun all pat rep s => replace_literal (String.length s) all pat rep s;
  dotExponentHomeDirectory := "/home/dev/.exponent";
  Api_versionsAsync := Ok demo_registry;
  download_run := fun url dest fs =>
    (Ok (), <[dest +:+ "/" +:+ strip_prefix starter_apps_url url := File "archive"]> fs);
  spawn_tar := tar;
  targz_extract := fun _ dir fs => (Failed "unexpected end of file", <[dir +:+ "/package.json" := File "{"]> fs);
  User_getUsernameAsync := Ok (VStr "dev");
  UrlUtils_constructPublishUrlAsync := fun root entryPoint =>
    Ok (VStr ("exp://" +:+ root +:+ "/" +:+ ToString entryPoint));
  UrlUtils_someRandomness := fun n => VStr ("rnd-" +:+ pretty n);
  UrlUtils_randomIdentifierForLoggedOutUser := fun n => VStr ("anonymous-" +:+ pretty n);
|}.

(** tar is not installed and leaves half a file behind. *)
Definition demo : Platform :=
  demo_with (fun _ dir fs =>
               (Failed "spawn tar ENOENT", <[dir +:+ "/partial" := File "half"]> fs)).

(** tar unpacks the three files of the template. *)
Definition demo_unpacking : Platform :=
  demo_with (fun _ dir fs =>
               (Ok (),
                <[dir +:+ "/exp.json" := File "{slug:'my-new-project', sdkVersion:'8.0.0'}"]>
                  (<[dir +:+ "/main.js" := File "register(__NAME__, __NAME__)"]>
                     (<[dir +:+ "/package.json" := File "{name:'app'}"]> fs)))).

(** Project trees of the examples, all rooted at /app. *)
Definition both_manifests : files :=
  {[ "/app/package.json" := File "{name:'app', main:'app.js', exp:{sdkVersion:'7.0.0', version:'2.0.0', entryPoint:'legacy.js'}}";
     "/app/exp.json" := File "{slug:'my-app', sdkVersion:'8.0.0', version:'3.0.0', entryPoint:'main.js'}" ]}.

Definition legacy_manifest : files :=
  {[ "/app/package.json" := File "{name:'app', main:'app.js', exp:{sdkVersion:'7.0.0', version:'2.0.0', entryPoint:'legacy.js'}}" ]}.

Definition only_exp_json : files :=
  {[ "/app/exp.json" := File "{slug:'my-app', sdkVersion:'8.0.0', version:'3.0.0', entryPoint:'main.js'}" ]}.

(** exp.json has a slug and a version but no SDK version; package.json
    has a name and a version. *)
Definition no_sdk_manifests : files :=
  {[ "/app/package.json" := File "{name:'app', version:'1.0.0', main:'app.js'}";
     "/app/exp.json" := File "{slug:'my-app', version:'3.0.0'}" ]}.

Definition empty_world : World := mkWorld ∅ None ∅ ∅ [] 0 [].

Definition world_with_foo : World :=
  set_disk {[ "/work/foo" := Dir ]} empty_world.

Definition world_with_recent (l : list string) : World :=
  set_recent_exps_store (Some l) empty_world.

Definition hundred_and_five_roots : list string :=
  (fun n : nat => "/projects/p" +:+ pretty n) <$> seq 0 105.

(** ** Describing projects *)

(** What the functions below read of Node's [process]: the platform name
    and the environment, whose values are strings. *)
Record Process := { process_platform : string; process_env : gmap string string }.

(** [try { body } catch (err) { handler }] around code that only reads. *)
Definition outcome_catch {A} (body : outcome A) (handler : exn -> outcome A) : outcome A :=
  match body with
  | Return a => Return a
  | Throw e => handler e
  end.

(** [Promise.all] over calls that run on the same disk: the results in the
    order of the calls, or a rejection. *)
Fixpoint Promise_all {A} (calls : list (outcome A)) : outcome (list A) :=
  match calls with
  | [] => Return []
  | call :: rest =>
      first ← call;
      others ← Promise_all rest;
      Return (first :: others)
  end.

Section Projects.
Context (P : Platform) (proc : Process).

(** [process.env[...] || '']: an unset variable and an empty one both give
    the empty string. *)
Definition getHomeDir : string :=
  let variable :=
    if String.eqb (process_platform proc) "win32" then "USERPROFILE" else "HOME" in
  default EmptyString (process_env proc !! variable).

(** [pth.substr(0, n)] is [String.substring 0 n pth] and [pth.substr(n)] is
    the rest of [pth] from position [n] on. *)
Definition makePathReadable (pth : string) : string :=
  let homedir := getHomeDir in
  if String.eqb (String.substring 0 (String.length homedir) pth) homedir
  then "~" +:+ String.substring (String.length homedir) (String.length pth) pth
  else pth.

(** The names read here, [name], [description], [iconUrl] and [exp], are own
    fields wherever they exist, as for [prop].  The try block covers the
    three reads of [exp] as well as the reading of the file. *)
Definition expInfoAsync (root : string) (fs : files) : outcome value :=
  let pkgJson := packageJsonForRoot P root in
  '(name, description, icon) ←
    outcome_catch
      (exp ← readAsync P (expJsonForRoot P root) fs;
       name ← member exp "name";
       description ← member exp "description";
       icon ← member exp "iconUrl";
       Return (name, description, icon))
      (fun _ =>
       pkg ← readAsync P pkgJson fs;
       name ← member pkg "name";
       description ← member pkg "description";
       (* pkg.exp && pkg.exp.iconUrl *)
       embedded ← member pkg "exp";
       icon ← (if truthy embedded then member embedded "iconUrl" else Return embedded);
       Return (name, description, icon));
  Return (VObj [("readableRoot", VStr (makePathReadable root));
                ("root", VStr root);
                ("name", name);
                ("description", description);
                ("icon", icon)]).

Definition expInfoSafeAsync (root : string) (fs : files) : outcome value :=
  outcome_catch (expInfoAsync root fs) (fun _ => Return VNull).

Definition recentValidExpsAsync : M (list value) :=
  recentExps ← recentExps_readAsync [];
  results ← read_disk (fun fs => Promise_all ((fun root => expInfoSafeAsync root fs) <$> recentExps));
  let filteredResults := filter (fun result => Is_true (truthy result)) results in
  mret (take 5 filteredResults).

End Projects.

(** ** More notions used in the statements *)

(** A manifest that can be used: the file is read and parsed, to something
    other than null. *)
Definition usable (P : Platform) (f : JsonFile) (fs : files) : Prop :=
  exists v, readAsync P f fs = Return v /\ nullish v = false.

(** The description that [expInfoAsync] builds of a project. *)
Definition description_of (proc : Process) (root : string) (name description icon : value)
  : value :=
  VObj [("readableRoot", VStr (makePathReadable proc root));
        ("root", VStr root);
        ("name", name);
        ("description", description);
        ("icon", icon)].

(** A project that [expInfoAsync] can describe. *)
Definition describable (P : Platform) (proc : Process) (fs : files) (root : string) : Prop :=
  exists info, expInfoAsync P proc root fs = Return info.

(** The descriptions of the projects of a list that can be described, in
    the order of the list. *)
Fixpoint descriptions (P : Platform) (proc : Process) (fs : files) (roots : list string)
  : list value :=
  match roots with
  | [] => []
  | root :: rest =>
      match expInfoAsync P proc root fs with
      | Return info => info :: descriptions P proc fs rest
      | Throw _ => descriptions P proc fs rest
      end
  end.

(** No event of the log is a file written. *)
Fixpoint no_file_written (l : list event) : bool :=
  match l with
  | [] => true
  | WroteFile _ _ :: _ => false
  | _ :: rest => no_file_written rest
  end.

(** ** More worked examples *)

Definition demo_process : Process :=
  {| process_platform := "linux"; process_env := {[ "HOME" := "/home/dev" ]} |}.

(** A platform like [demo] that parses the manifests of two more projects:
    one described by its exp.json, one by its package.json. *)
Definition gallery_documents : list (string * value) :=
  [ ("{name:'Gallery', description:'Pictures', iconUrl:'https://example.org/g.png'}",
     VObj [("name", VStr "Gallery"); ("description", VStr "Pictures");
           ("iconUrl", VStr "https://example.org/g.png")]);
    ("{name:'notes', description:'Notes', exp:{iconUrl:'https://example.org/n.png'}}",
     VObj [("name", VStr "notes"); ("description", VStr "Notes");
           ("exp", VObj [("iconUrl", VStr "https://example.org/n.png")])]);
    ("null", VNull) ].

Definition gallery : Platform := {|
  path_join := path_join demo;
  path_resolve := path_resolve demo;
  JSON_parse := fun text => assoc text gallery_documents;
  JSON5_parse := fun text => assoc text gallery_documents;
  JSON_stringify := JSON_stringify demo;
  String_replace := String_replace demo;
  dotExponentHomeDirectory := dotExponentHomeDirectory demo;
  Api_versionsAsync := Failed "getaddrinfo ENOTFOUND";
  download_run := fun _ _ fs => (Failed "connect ETIMEDOUT", fs);
  spawn_tar := spawn_tar demo;
  targz_extract := targz_extract demo;
  User_getUsernameAsync := User_getUsernameAsync demo;
  UrlUtils_constructPublishUrlAsync := UrlUtils_constructPublishUrlAsync demo;
  UrlUtils_someRandomness := UrlUtils_someRandomness demo;
  UrlUtils_randomIdentifierForLoggedOutUser := UrlUtils_randomIdentifierForLoggedOutUser demo;
|}.

(** A platform like [demo] whose downloads time out. *)
Definition flaky : Platform := {|
  path_join := path_join demo;
  path_resolve := path_resolve demo;
  JSON_parse := JSON_parse demo;
  JSON5_parse := JSON5_parse demo;
  JSON_stringify := JSON_stringify demo;
  String_replace := String_replace demo;
  dotExponentHomeDirectory := dotExponentHomeDirectory demo;
  Api_versionsAsync := Api_versionsAsync demo;
  download_run := fun _ _ fs => (Failed "connect ETIMEDOUT", fs);
  spawn_tar := spawn_tar demo;
  targz_extract := targz_extract demo;
  User_getUsernameAsync := User_getUsernameAsync demo;
  UrlUtils_constructPublishUrlAsync := UrlUtils_constructPublishUrlAsync demo;
  UrlUtils_someRandomness := UrlUtils_someRandomness demo;
  UrlUtils_randomIdentifierForLoggedOutUser := UrlUtils_randomIdentifierForLoggedOutUser demo;
|}.

(** Three projects under /home/dev: gallery has an exp.json, notes only a
    package.json, and gone has an exp.json that holds null. *)
Definition projects_disk : files :=
  {[ "/home/dev/gallery/exp.json" :=
       File "{name:'Gallery', description:'Pictures', iconUrl:'https://example.org/g.png'}";
     "/home/dev/notes/package.json" :=
       File "{name:'notes', description:'Notes', exp:{iconUrl:'https://example.org/n.png'}}";
     "/home/dev/gone/exp.json" := File "null" ]}.

Definition projects_world (recent : list string) : World :=
  set_recent_exps_store (Some recent) (set_disk projects_disk empty_world).

(** package.json embeds a config and exp.json holds null. *)
Definition null_exp_json : files :=
  {[ "/app/package.json" := File "{name:'app', main:'app.js', exp:{sdkVersion:'7.0.0', version:'2.0.0', entryPoint:'legacy.js'}}";
     "/app/exp.json" := File "null" ]}.

(** A platform like [demo] for a legacy project whose package.json has a
    version of its own. *)
Definition versioned : Platform := {|
  path_join := path_join demo;
  path_resolve := path_resolve demo;
  JSON_parse := fun text =>
    if String.eqb text "{name:'app', version:'1.0.0', exp:{sdkVersion:'7.0.0', version:'2.0.0'}}"
    then Some (VObj [("name", VStr "app"); ("version", VStr "1.0.0");
                     ("exp", VObj [("sdkVersion", VStr "7.0.0"); ("version", VStr "2.0.0")])])
    else None;
  JSON5_parse := JSON5_parse demo;
  JSON_stringify := JSON_stringify demo;
  String_replace := String_replace demo;
  dotExponentHomeDirectory := dotExponentHomeDirectory demo;
  Api_versionsAsync := Api_versionsAsync demo;
  download_run := download_run demo;
  spawn_tar := spawn_tar demo;
  targz_extract := targz_extract demo;
  User_getUsernameAsync := User_getUsernameAsync demo;
  UrlUtils_constructPublishUrlAsync := UrlUtils_constructPublishUrlAsync demo;
  UrlUtils_someRandomness := UrlUtils_someRandomness demo;
  UrlUtils_randomIdentifierForLoggedOutUser := UrlUtils_randomIdentifierForLoggedOutUser demo;
|}.

Definition legacy_versioned_manifest : files :=
  {[ "/app/package.json" :=
       File "{name:'app', version:'1.0.0', exp:{sdkVersion:'7.0.0', version:'2.0.0'}}" ]}.

(** A process without a home directory. *)
Definition homeless_process : Process :=
  {| process_platform := "linux"; process_env := ∅ |}.

(** ** Tactics *)

Ltac unfold_outcome := unfold mbind, outcome_bind, mret, outcome_ret in *.

Ltac unfold_M :=
  unfold mbind, M_bind, mret, M_ret, throw, lift, try_catch, emit, read_disk,
         external in *.

(** ** Properties of manifest resolution *)

Lemma member_truthy (v : value) (k : string) :
  truthy v = true -> member v k = Return (prop v k).
Proof. destruct v; simpl; intros H; try discriminate; reflexivity. Qed.

Lemma read_pkg_exp_both (P : Platform) (root : string) (fs : files) (pkg exp : value) :
  readAsync P (packageJsonForRoot P root) fs = Return pkg ->
  readAsync P (expJsonForRoot P root) fs = Return exp ->
  read_pkg_exp P root fs = (pkg, exp).
Proof. intros Hp He. unfold read_pkg_exp. rewrite Hp, He. reflexivity. Qed.

Lemma read_pkg_exp_only_pkg (P : Platform) (root : string) (fs : files) (pkg : value) (e : exn) :
  readAsync P (packageJsonForRoot P root) fs = Return pkg ->
  readAsync P (expJsonForRoot P root) fs = Throw e ->
  read_pkg_exp P root fs = (pkg, VUndefined).
Proof. intros Hp He. unfold read_pkg_exp. rewrite Hp, He. reflexivity. Qed.

Lemma read_pkg_exp_no_pkg (P : Platform) (root : string) (fs : files) (e : exn) :
  readAsync P (packageJsonForRoot P root) fs = Throw e ->
  read_pkg_exp P root fs = (VUndefined, VUndefined).
Proof. intros Hp. unfold read_pkg_exp. rewrite Hp. reflexivity. Qed.

Lemma expConfig_resolved (P : Platform) (root : string) (fs : files) :
  expConfigForRootAsync P root fs =
  Return (resolved (read_pkg_exp P root fs).1 (read_pkg_exp P root fs).2).
Proof.
  unfold expConfigForRootAsync, resolved.
  destruct (read_pkg_exp P root fs) as [pkg exp]; simpl.
  destruct (truthy exp); simpl; [reflexivity|].
  destruct (truthy pkg) eqn:Hpkg; simpl; [|reflexivity].
  rewrite member_truthy by assumption. reflexivity.
Qed.

(** A standalone manifest with truthy contents is the config as it is. *)
Lemma expConfig_truthy_standalone (P : Platform) (root : string) (fs : files) (pkg exp : value) :
  readAsync P (packageJsonForRoot P root) fs = Return pkg ->
  readAsync P (expJsonForRoot P root) fs = Return exp ->
  truthy exp = true ->
  expConfigForRootAsync P root fs = Return exp.
Proof.
  intros Hp He Ht. rewrite expConfig_resolved, (read_pkg_exp_both _ _ _ _ _ Hp He).
  unfold resolved; simpl. rewrite Ht. reflexivity.
Qed.

(** C1. When package.json and exp.json are both read, the config is exactly
    the object parsed from exp.json, whatever package.json embeds under
    [exp]; when only package.json is read and it has an [exp] field, the
    config is that field. *)
Theorem expConfig_standalone_wins_else_embedded
  (P : Platform) (root : string) (fs : files) :
  (forall (pkg : value) (exp_fields : list (string * value)),
     readAsync P (packageJsonForRoot P root) fs = Return pkg ->
     readAsync P (expJsonForRoot P root) fs = Return (VObj exp_fields) ->
     expConfigForRootAsync P root fs = Return (VObj exp_fields))
  /\
  (forall (pkg_fields : list (string * value)) (e : exn) (embedded : value),
     readAsync P (packageJsonForRoot P root) fs = Return (VObj pkg_fields) ->
     readAsync P (expJsonForRoot P root) fs = Throw e ->
     assoc "exp" pkg_fields = Some embedded ->
     expConfigForRootAsync P root fs = Return embedded).
Proof.
  split.
  - intros pkg exp_fields Hp He.
    apply (expConfig_truthy_standalone P root fs pkg); auto.
  - intros pkg_fields e embedded Hp He Hemb.
    rewrite expConfig_resolved, (read_pkg_exp_only_pkg _ _ _ _ _ Hp He).
    unfold resolved; simpl. rewrite Hemb. reflexivity.
Qed.

Lemma expConfig_standalone_wins_else_embedded_witness :
  expConfigForRootAsync demo "/app" both_manifests
  = Return (VObj [("slug", VStr "my-app"); ("sdkVersion", VStr "8.0.0");
                  ("version", VStr "3.0.0"); ("entryPoint", VStr "main.js")])
  /\ expConfigForRootAsync demo "/app" legacy_manifest
     = Return (VObj [("sdkVersion", VStr "7.0.0"); ("version", VStr "2.0.0");
                     ("entryPoint", VStr "legacy.js")]).
Proof.
  split.
  - eapply (proj1 (expConfig_standalone_wins_else_embedded demo "/app" both_manifests));
      vm_compute; reflexivity.
  - eapply (proj2 (expConfig_standalone_wins_else_embedded demo "/app" legacy_manifest));
      vm_compute; reflexivity.
Defined.

(** Nothing in [expConfigForRootAsync] can throw. *)
Lemma expConfig_total (P : Platform) (root : string) (fs : files) :
  exists cfg, expConfigForRootAsync P root fs = Return cfg.
Proof. eexists. apply expConfig_resolved. Qed.

(** X16. Contents of exp.json that are falsy ([null], [false], [0], an empty
    string) are taken for a missing file: the embedded section is used. *)
Lemma expConfig_falsy_standalone (P : Platform) (root : string) (fs : files) (pkg exp : value) :
  readAsync P (packageJsonForRoot P root) fs = Return pkg ->
  readAsync P (expJsonForRoot P root) fs = Return exp ->
  truthy exp = false -> truthy pkg = true ->
  expConfigForRootAsync P root fs = Return (prop pkg "exp").
Proof.
  intros Hp He Ht Hpkg. rewrite expConfig_resolved, (read_pkg_exp_both _ _ _ _ _ Hp He).
  unfold resolved; simpl. rewrite Ht, Hpkg. reflexivity.
Qed.

Lemma publish_sources_no_pkg (P : Platform) (root : string) (fs : files) (e : exn) :
  readAsync P (packageJsonForRoot P root) fs = Throw e ->
  publish_sources P root fs = Return (VUndefined, VUndefined, VUndefined, VUndefined).
Proof.
  intros Hp. unfold publish_sources. rewrite (read_pkg_exp_no_pkg _ _ _ _ Hp). reflexivity.
Qed.

(** C10. When reading package.json fails, exp.json is never consulted: the
    config is undefined whether or not exp.json could be read, and
    [getPublishInfoAsync] is left with an undefined [exp] as well, so that a
    logged-in caller gets its complaint about the SDK version. *)
Theorem unreadable_package_json_hides_exp_json
  (P : Platform) (root : string) (fs : files) (e : exn) :
  readAsync P (packageJsonForRoot P root) fs = Throw e ->
  expConfigForRootAsync P root fs = Return VUndefined
  /\ publish_sources P root fs = Return (VUndefined, VUndefined, VUndefined, VUndefined)
  /\ (forall u, User_getUsernameAsync P = Ok u -> truthy u = true ->
        getPublishInfoAsync P root fs = Throw sdkVersion_missing).
Proof.
  intros Hp. split; [|split].
  - rewrite expConfig_resolved, (read_pkg_exp_no_pkg _ _ _ _ Hp). reflexivity.
  - apply (publish_sources_no_pkg _ _ _ _ Hp).
  - intros u Hu Ht. unfold getPublishInfoAsync.
    rewrite Hu; simpl. unfold_outcome. rewrite Ht; simpl.
    rewrite (publish_sources_no_pkg _ _ _ _ Hp). reflexivity.
Qed.

Lemma unreadable_package_json_hides_exp_json_witness :
  readAsync demo (expJsonForRoot demo "/app") only_exp_json
  = Return (VObj [("slug", VStr "my-app"); ("sdkVersion", VStr "8.0.0");
                  ("version", VStr "3.0.0"); ("entryPoint", VStr "main.js")])
  /\ expConfigForRootAsync demo "/app" only_exp_json = Return VUndefined
  /\ getPublishInfoAsync demo "/app" only_exp_json = Throw sdkVersion_missing.
Proof.
  split; [vm_compute; reflexivity|].
  destruct (unreadable_package_json_hides_exp_json demo "/app" only_exp_json
              (External "ENOENT")) as (Hcfg & _ & Hpub).
  - vm_compute; reflexivity.
  - split; [exact Hcfg|].
    apply (Hpub (VStr "dev")); reflexivity.
Defined.

(** C9. With package.json read as an object, the entry point is "index.js"
    when neither [main] nor the config's [entryPoint] is set, [main] when
    only [main] is set, and the config's [entryPoint] whenever that is set.
    A field is set when the code's test for it succeeds, that is, when its
    value is truthy; the config is the one of [expConfigForRootAsync]. *)
Theorem determineEntryPoint_precedence
  (P : Platform) (root : string) (fs : files) (pkg_fields : list (string * value)) :
  readAsync P (packageJsonForRoot P root) fs = Return (VObj pkg_fields) ->
  exists cfg,
    expConfigForRootAsync P root fs = Return cfg /\
    let main := prop (VObj pkg_fields) "main" in
    let entryPoint := prop cfg "entryPoint" in
    (truthy main = false -> truthy entryPoint = false ->
       determineEntryPointAsync P root fs = Return (VStr "index.js"))
    /\ (truthy main = true -> truthy entryPoint = false ->
          determineEntryPointAsync P root fs = Return main)
    /\ (truthy entryPoint = true ->
          determineEntryPointAsync P root fs = Return entryPoint).
Proof.
  intros Hp. destruct (expConfig_total P root fs) as [cfg Hcfg].
  exists cfg. split; [exact Hcfg|].
  assert (Hrun : determineEntryPointAsync P root fs =
                 Return (if truthy (prop cfg "entryPoint") then prop cfg "entryPoint"
                         else js_or (prop (VObj pkg_fields) "main") (VStr "index.js"))).
  { unfold determineEntryPointAsync. rewrite Hcfg, Hp. unfold_outcome. simpl.
    destruct (truthy cfg) eqn:Hc.
    - rewrite (member_truthy _ _ Hc).
      destruct (truthy (prop cfg "entryPoint")); reflexivity.
    - rewrite Hc. destruct cfg; simpl in *; try discriminate; reflexivity. }
  cbv zeta. rewrite Hrun. unfold js_or.
  repeat split; intros; repeat match goal with H : truthy _ = _ |- _ => rewrite H end;
    reflexivity.
Qed.

Lemma determineEntryPoint_precedence_witness :
  determineEntryPointAsync demo "/app" both_manifests = Return (VStr "main.js").
Proof.
  destruct (determineEntryPoint_precedence demo "/app" both_manifests
              [("name", VStr "app"); ("main", VStr "app.js");
               ("exp", VObj [("sdkVersion", VStr "7.0.0"); ("version", VStr "2.0.0");
                             ("entryPoint", VStr "legacy.js")])])
    as (cfg & Hcfg & _ & _ & Hentry).
  - vm_compute; reflexivity.
  - assert (cfg = VObj [("slug", VStr "my-app"); ("sdkVersion", VStr "8.0.0");
                        ("version", VStr "3.0.0"); ("entryPoint", VStr "main.js")]) as ->.
    { vm_compute in Hcfg. congruence. }
    apply Hentry. reflexivity.
Defined.

(** ** Properties of the publish descriptor *)

Lemma publish_sources_derive (P : Platform) (root : string) (fs : files) :
  publish_sources P root fs =
  Return (derive (read_pkg_exp P root fs).1 (read_pkg_exp P root fs).2).
Proof.
  unfold publish_sources, derive.
  destruct (read_pkg_exp P root fs) as [pkg exp]; simpl.
  destruct (truthy exp) eqn:He; simpl.
  - destruct (truthy pkg) eqn:Hp; simpl; [|reflexivity].
    rewrite !member_truthy by assumption. unfold_outcome. unfold js_or.
    destruct (truthy (prop pkg "version")); reflexivity.
  - destruct (truthy pkg) eqn:Hp; simpl; [|reflexivity].
    rewrite !member_truthy by assumption. unfold_outcome.
    destruct (truthy (prop pkg "exp")); reflexivity.
Qed.

(** The config that [getPublishInfoAsync] checks has an SDK version exactly
    when the config of [expConfigForRootAsync] has one. *)
Lemma derive_has_sdkVersion (pkg exp : value) :
  has_sdkVersion (derive pkg exp).1.1.2 = has_sdkVersion (resolved pkg exp).
Proof.
  unfold derive, resolved, has_sdkVersion.
  destruct (truthy exp) eqn:He; simpl.
  - destruct (truthy pkg); reflexivity.
  - destruct (truthy pkg) eqn:Hp; simpl; [|reflexivity].
    destruct (truthy (prop pkg "exp")) eqn:Hx; simpl; rewrite ?Hx, ?He; reflexivity.
Qed.

Lemma readAsync_throws (P : Platform) (f : JsonFile) (fs : files) (e : exn) :
  readAsync P f fs = Throw e -> exists what, e = External what.
Proof.
  unfold readAsync, readFile. unfold_outcome.
  destruct (fs !! file f) as [[|text]|]; [intros [= <-]; eauto| |intros [= <-]; eauto].
  destruct (if json5 f then JSON5_parse P else JSON_parse P); [discriminate|].
  intros [= <-]; eauto.
Qed.

Lemma member_throws (v : value) (k : string) (e : exn) :
  member v k = Throw e -> e = TypeError.
Proof. unfold member. destruct (nullish v); congruence. Qed.

Lemma determineEntryPoint_throws (P : Platform) (root : string) (fs : files) (e : exn) :
  determineEntryPointAsync P root fs = Throw e -> named_field e = None.
Proof.
  unfold determineEntryPointAsync. rewrite expConfig_resolved. unfold_outcome.
  set (cfg := resolved _ _).
  destruct (readAsync P (packageJsonForRoot P root) fs) as [pkg|e'] eqn:Hp.
  - destruct (member pkg "main") as [main|e1] eqn:Hm.
    + destruct (truthy cfg) eqn:Hc.
      * rewrite (member_truthy _ _ Hc).
        destruct (truthy (prop cfg "entryPoint")); discriminate.
      * rewrite Hc. discriminate.
    + intros [= <-]. apply member_throws in Hm as ->. reflexivity.
  - intros [= <-]. apply readAsync_throws in Hp as [what ->]. reflexivity.
Qed.

(** What [getPublishInfoAsync] does once a username is at hand. *)
Lemma getPublishInfo_checks (P : Platform) (root : string) (fs : files) (u : value) :
  User_getUsernameAsync P = Ok u -> truthy u = true ->
  let '(pkg, exp, name, version) :=
    derive (read_pkg_exp P root fs).1 (read_pkg_exp P root fs).2 in
  match first_missing exp name version with
  | Some f => getPublishInfoAsync P root fs = Throw (missing_error f)
  | None =>
      getPublishInfoAsync P root fs =
      (entryPoint ← determineEntryPointAsync P root fs;
       ngrokUrl ← of_reply (UrlUtils_constructPublishUrlAsync P root entryPoint);
       Return {| args := {| username := u;
                            localPackageName := name;
                            packageVersion := version;
                            remoteUsername := u;
                            remotePackageName := name;
                            remoteFullPackageName :=
                              "@" +:+ ToString u +:+ "/" +:+ ToString name;
                            ngrokUrl := ngrokUrl;
                            sdkVersion := prop exp "sdkVersion" |};
                 body := pkg |})
  end.
Proof.
  intros Hu Ht. unfold getPublishInfoAsync.
  rewrite Hu, publish_sources_derive; simpl. unfold_outcome. rewrite Ht; simpl.
  destruct (derive _ _) as [[[pkg exp] name] version].
  unfold first_missing, has_sdkVersion.
  destruct (truthy exp) eqn:He; simpl; [|reflexivity].
  rewrite (member_truthy _ _ He).
  destruct (truthy (prop exp "sdkVersion")); simpl; [|reflexivity].
  destruct (truthy name); simpl; [|reflexivity].
  destruct (truthy version); simpl; reflexivity.
Qed.

Lemma named_field_missing_error (f : config_field) : named_field (missing_error f) = Some f.
Proof. destruct f; reflexivity. Qed.

(** A failure that names a field names the first field missing among what
    the function derived. *)
Lemma getPublishInfo_named (P : Platform) (root : string) (fs : files) (e : exn)
      (f : config_field) :
  getPublishInfoAsync P root fs = Throw e -> named_field e = Some f ->
  let d := derive (read_pkg_exp P root fs).1 (read_pkg_exp P root fs).2 in
  first_missing d.1.1.2 d.1.2 d.2 = Some f.
Proof.
  intros Hthrow Hnamed.
  pose proof (fun u => getPublishInfo_checks P root fs u) as Hchk.
  cbv zeta. destruct (derive _ _) as [[[pkg cfg] name] version]. simpl.
  destruct (User_getUsernameAsync P) as [u|what] eqn:Hu.
  - destruct (truthy u) eqn:Ht.
    + specialize (Hchk u eq_refl Ht).
      destruct (first_missing cfg name version) as [f'|].
      * rewrite Hchk in Hthrow. injection Hthrow as <-.
        rewrite named_field_missing_error in Hnamed. congruence.
      * exfalso. rewrite Hchk in Hthrow. unfold_outcome.
        destruct (determineEntryPointAsync P root fs) as [ep|e'] eqn:Hep.
        -- destruct (UrlUtils_constructPublishUrlAsync P root ep); simpl in Hthrow;
             [discriminate|].
           injection Hthrow as <-. discriminate.
        -- injection Hthrow as <-.
           rewrite (determineEntryPoint_throws _ _ _ _ Hep) in Hnamed. discriminate.
    + exfalso. unfold getPublishInfoAsync in Hthrow. rewrite Hu in Hthrow.
      simpl in Hthrow. unfold_outcome. rewrite Ht in Hthrow. simpl in Hthrow.
      injection Hthrow as <-. discriminate.
  - exfalso. unfold getPublishInfoAsync in Hthrow. rewrite Hu in Hthrow.
    simpl in Hthrow. injection Hthrow as <-. discriminate.
Qed.

(** With a username at hand, the first field missing among what the
    function derived is reported. *)
Lemma getPublishInfo_reports (P : Platform) (root : string) (fs : files) (u : value)
      (f : config_field) :
  User_getUsernameAsync P = Ok u -> truthy u = true ->
  let d := derive (read_pkg_exp P root fs).1 (read_pkg_exp P root fs).2 in
  first_missing d.1.1.2 d.1.2 d.2 = Some f ->
  getPublishInfoAsync P root fs = Throw (missing_error f).
Proof.
  intros Hu Ht. pose proof (getPublishInfo_checks P root fs u Hu Ht) as Hchk.
  cbv zeta. destruct (derive _ _) as [[[pkg cfg] name] version]. simpl.
  intros Hfirst. rewrite Hfirst in Hchk. exact Hchk.
Qed.

Lemma first_missing_legacy (pkg_fields : list (string * value)) :
  let pkg := VObj pkg_fields in
  let d := derive pkg VUndefined in
  first_missing d.1.1.2 d.1.2 d.2
  = first_missing (prop pkg "exp") (prop pkg "name") (prop pkg "version").
Proof.
  cbv zeta. unfold derive. simpl.
  destruct (truthy (default VUndefined (assoc "exp" pkg_fields))) eqn:Hemb; [reflexivity|].
  unfold first_missing, has_sdkVersion. simpl. rewrite Hemb. reflexivity.
Qed.

(** C2, as amended.  Which field counts as missing is read off the
    manifests.  With package.json and exp.json read as objects: the SDK
    version is exp.json's, the name is its [slug], the version is
    package.json's or else exp.json's.  In the legacy case (package.json an
    object, exp.json not read): the SDK version is that of the embedded
    config, the name and the version are package.json's, and the version of
    the embedded config does not count.  In both cases a failure that names
    a field names the first missing one in the order sdkVersion, name,
    version, and with a username at hand the first missing field is the one
    named.  Whatever the manifests, a resolved config without an SDK version
    gives the complaint about the SDK version. *)
Theorem publish_failure_names_first_missing_manifest_field
  (P : Platform) (root : string) (fs : files) :
  (forall pkg_fields exp_fields,
     readAsync P (packageJsonForRoot P root) fs = Return (VObj pkg_fields) ->
     readAsync P (expJsonForRoot P root) fs = Return (VObj exp_fields) ->
     let pkg := VObj pkg_fields in
     let exp := VObj exp_fields in
     let missing :=
       first_missing exp (prop exp "slug") (js_or (prop pkg "version") (prop exp "version")) in
     (forall e f,
        getPublishInfoAsync P root fs = Throw e -> named_field e = Some f ->
        missing = Some f)
     /\ (forall u f,
           User_getUsernameAsync P = Ok u -> truthy u = true ->
           missing = Some f ->
           getPublishInfoAsync P root fs = Throw (missing_error f)))
  /\ (forall pkg_fields e0,
        readAsync P (packageJsonForRoot P root) fs = Return (VObj pkg_fields) ->
        readAsync P (expJsonForRoot P root) fs = Throw e0 ->
        let pkg := VObj pkg_fields in
        let missing := first_missing (prop pkg "exp") (prop pkg "name") (prop pkg "version") in
        (forall e f,
           getPublishInfoAsync P root fs = Throw e -> named_field e = Some f ->
           missing = Some f)
        /\ (forall u f,
              User_getUsernameAsync P = Ok u -> truthy u = true ->
              missing = Some f ->
              getPublishInfoAsync P root fs = Throw (missing_error f)))
  /\ (forall cfg u,
        expConfigForRootAsync P root fs = Return cfg ->
        has_sdkVersion cfg = false ->
        User_getUsernameAsync P = Ok u -> truthy u = true ->
        getPublishInfoAsync P root fs = Throw sdkVersion_missing).
Proof.
  split; [|split].
  - intros pkg_fields exp_fields Hp He. cbv zeta.
    pose proof (getPublishInfo_named P root fs) as Hnamed.
    pose proof (getPublishInfo_reports P root fs) as Hreports.
    rewrite (read_pkg_exp_both _ _ _ _ _ Hp He) in Hnamed, Hreports.
    cbv zeta in Hnamed, Hreports.
    split.
    + intros e f Hthrow Hf. exact (Hnamed e f Hthrow Hf).
    + intros u f Hu Ht Hmiss. exact (Hreports u f Hu Ht Hmiss).
  - intros pkg_fields e0 Hp He. cbv zeta.
    pose proof (getPublishInfo_named P root fs) as Hnamed.
    pose proof (getPublishInfo_reports P root fs) as Hreports.
    rewrite (read_pkg_exp_only_pkg _ _ _ _ _ Hp He) in Hnamed, Hreports.
    cbv zeta in Hnamed, Hreports.
    pose proof (first_missing_legacy pkg_fields) as Hlegacy. cbv zeta in Hlegacy.
    change (VObj pkg_fields, VUndefined).1 with (VObj pkg_fields) in Hnamed, Hreports.
    change (VObj pkg_fields, VUndefined).2 with VUndefined in Hnamed, Hreports.
    rewrite Hlegacy in Hnamed, Hreports.
    split.
    + intros e f Hthrow Hf. exact (Hnamed e f Hthrow Hf).
    + intros u f Hu Ht Hmiss. exact (Hreports u f Hu Ht Hmiss).
  - intros cfg u Hcfg Hno Hu Ht.
    rewrite expConfig_resolved in Hcfg. injection Hcfg as <-.
    rewrite <- derive_has_sdkVersion in Hno.
    apply (getPublishInfo_reports P root fs u field_sdkVersion Hu Ht).
    cbv zeta. unfold first_missing. rewrite Hno. reflexivity.
Qed.

Lemma publish_failure_names_first_missing_manifest_field_witness :
  getPublishInfoAsync demo "/app" no_sdk_manifests = Throw sdkVersion_missing
  /\ getPublishInfoAsync demo "/app" legacy_manifest = Throw cant_get_version.
Proof.
  split.
  - apply (proj2 (proj1 (publish_failure_names_first_missing_manifest_field demo "/app"
                           no_sdk_manifests)
                    [("name", VStr "app"); ("version", VStr "1.0.0"); ("main", VStr "app.js")]
                    [("slug", VStr "my-app"); ("version", VStr "3.0.0")]
                    ltac:(vm_compute; reflexivity) ltac:(vm_compute; reflexivity))
             (VStr "dev") field_sdkVersion); reflexivity.
  - apply (proj2 (proj1 (proj2 (publish_failure_names_first_missing_manifest_field demo "/app"
                                  legacy_manifest))
                    [("name", VStr "app"); ("main", VStr "app.js");
                     ("exp", VObj [("sdkVersion", VStr "7.0.0"); ("version", VStr "2.0.0");
                                   ("entryPoint", VStr "legacy.js")])]
                    (External "ENOENT")
                    ltac:(vm_compute; reflexivity) ltac:(vm_compute; reflexivity))
             (VStr "dev") field_version); reflexivity.
Defined.

(** C2 as stated does not hold.  In the tree [legacy_manifest] package.json
    has a name and no version, exp.json is not there, and the embedded
    config has SDK version 7.0.0 and version 2.0.0.  By the rules of the
    specification nothing is missing: the resolved config has an SDK
    version, the name is package.json's, and the version falls back to the
    config's 2.0.0.  Yet the call fails, and the field it names is the
    version. *)
Lemma version_named_though_derivable :
  exists pkg cfg,
    read_pkg_exp demo "/app" legacy_manifest = (pkg, VUndefined)
    /\ expConfigForRootAsync demo "/app" legacy_manifest = Return cfg
    /\ has_sdkVersion cfg = true
    /\ claimed_name pkg VUndefined = VStr "app"
    /\ claimed_version pkg cfg = VStr "2.0.0"
    /\ claimed_first_missing pkg VUndefined = None
    /\ getPublishInfoAsync demo "/app" legacy_manifest = Throw cant_get_version
    /\ named_field cant_get_version = Some field_version.
Proof.
  do 2 eexists. repeat split; vm_compute; reflexivity.
Qed.

(** A successful call passed the three checks and carries the derived
    version. *)
Lemma getPublishInfo_success (P : Platform) (root : string) (fs : files) (info : PublishInfo) :
  getPublishInfoAsync P root fs = Return info ->
  let d := derive (read_pkg_exp P root fs).1 (read_pkg_exp P root fs).2 in
  first_missing d.1.1.2 d.1.2 d.2 = None /\ packageVersion (args info) = d.2.
Proof.
  intros Hok.
  destruct (User_getUsernameAsync P) as [u|what] eqn:Hu;
    [|unfold getPublishInfoAsync in Hok; rewrite Hu in Hok; discriminate].
  destruct (truthy u) eqn:Ht;
    [|unfold getPublishInfoAsync in Hok; rewrite Hu in Hok; simpl in Hok;
      unfold_outcome; rewrite Ht in Hok; discriminate].
  pose proof (getPublishInfo_checks P root fs u Hu Ht) as Hchk.
  cbv zeta. destruct (derive _ _) as [[[pkg cfg] name] version]. simpl.
  destruct (first_missing cfg name version) as [f|]; [congruence|].
  split; [reflexivity|].
  rewrite Hchk in Hok. unfold_outcome.
  destruct (determineEntryPointAsync P root fs) as [ep|]; [|discriminate].
  destruct (UrlUtils_constructPublishUrlAsync P root ep); simpl in Hok; [|discriminate].
  injection Hok as <-. reflexivity.
Qed.

(** C8. In every successful call of [getPublishInfoAsync] the descriptor's
    version is package.json's version, or the resolved config's version
    when package.json has none: package.json was read, the config is the
    one [expConfigForRootAsync] returns, and the version is
    [claimed_version] of the two.  This includes the legacy case, where
    exp.json is not read and the config is the section embedded in
    package.json. *)
Theorem publish_version_is_manifest_version_else_config_version
  (P : Platform) (root : string) (fs : files) (info : PublishInfo) :
  getPublishInfoAsync P root fs = Return info ->
  exists pkg cfg,
    readAsync P (packageJsonForRoot P root) fs = Return pkg
    /\ expConfigForRootAsync P root fs = Return cfg
    /\ packageVersion (args info) = claimed_version pkg cfg
    /\ truthy (packageVersion (args info)) = true
    /\ (forall e, readAsync P (expJsonForRoot P root) fs = Throw e -> cfg = prop pkg "exp").
Proof.
  intros Hok. apply getPublishInfo_success in Hok as [Hnone ->].
  rewrite expConfig_resolved. unfold read_pkg_exp in *.
  destruct (readAsync P (packageJsonForRoot P root) fs) as [pkg|e] eqn:Hp;
    [|simpl in Hnone; discriminate].
  exists pkg. eexists. split; [reflexivity|]. split; [reflexivity|].
  unfold first_missing in Hnone.
  destruct (readAsync P (expJsonForRoot P root) fs) as [exp|e] eqn:He; simpl in *.
  - unfold derive, resolved, claimed_version in *.
    destruct (truthy exp) eqn:Hexp; simpl in *.
    + destruct (truthy pkg) eqn:Hpkg; simpl in *.
      * destruct (has_sdkVersion exp); [|discriminate]. simpl in Hnone.
        destruct (truthy (prop exp "slug")); [|discriminate]. simpl in Hnone.
        destruct (truthy (js_or (prop pkg "version") (prop exp "version"))) eqn:Hv;
          [|discriminate].
        repeat split; auto; intros e [=].
      * destruct (has_sdkVersion exp); discriminate.
    + destruct (truthy pkg) eqn:Hpkg; simpl in *.
      * destruct (truthy (prop pkg "exp")) eqn:Hemb; simpl in *.
        -- destruct (has_sdkVersion (prop pkg "exp")); [|discriminate]. simpl in Hnone.
           destruct (truthy (prop pkg "name")); [|discriminate]. simpl in Hnone.
           destruct (truthy (prop pkg "version")) eqn:Hv; [|discriminate].
           unfold js_or. rewrite Hv. repeat split; auto; intros e [=].
        -- unfold has_sdkVersion in Hnone. rewrite Hexp in Hnone. discriminate.
      * unfold has_sdkVersion in Hnone. rewrite Hexp in Hnone. discriminate.
  - unfold derive, resolved, claimed_version in *. simpl in *.
    destruct (truthy pkg) eqn:Hpkg; simpl in *; [|discriminate].
    destruct (truthy (prop pkg "exp")) eqn:Hemb; simpl in *; [|discriminate].
    destruct (has_sdkVersion (prop pkg "exp")); [|discriminate]. simpl in Hnone.
    destruct (truthy (prop pkg "name")); [|discriminate]. simpl in Hnone.
    destruct (truthy (prop pkg "version")) eqn:Hv; [|discriminate].
    unfold js_or. rewrite Hv. repeat split; auto.
Qed.

Lemma publish_version_is_manifest_version_else_config_version_witness :
  (exists info, getPublishInfoAsync demo "/app" both_manifests = Return info
                /\ packageVersion (args info) = VStr "3.0.0")
  /\ (exists info, getPublishInfoAsync versioned "/app" legacy_versioned_manifest = Return info
                   /\ packageVersion (args info) = VStr "1.0.0").
Proof.
  split.
  - destruct (getPublishInfoAsync demo "/app" both_manifests) as [info|e] eqn:Hrun;
      [|vm_compute in Hrun; discriminate].
    exists info. split; [reflexivity|].
    destruct (publish_version_is_manifest_version_else_config_version demo "/app"
                both_manifests info Hrun) as (pkg & cfg & Hp & Hcfg & -> & _).
    vm_compute in Hp. vm_compute in Hcfg. injection Hp as <-. injection Hcfg as <-.
    reflexivity.
  - destruct (getPublishInfoAsync versioned "/app" legacy_versioned_manifest)
      as [info|e] eqn:Hrun; [|vm_compute in Hrun; discriminate].
    exists info. split; [reflexivity|].
    destruct (publish_version_is_manifest_version_else_config_version versioned "/app"
                legacy_versioned_manifest info Hrun) as (pkg & cfg & Hp & Hcfg & -> & _).
    vm_compute in Hp. vm_compute in Hcfg. injection Hp as <-. injection Hcfg as <-.
    reflexivity.
Defined.

(** ** Properties of scaffolding *)

(** C7. [_extract] spawns tar first.  If that succeeds nothing else is run.
    If it fails, whatever the failure, the tar.gz library is run on the disk
    as tar left it, and its answer is the answer of [_extract]: its failure
    is thrown as it is, and the disk stays as the library left it.  So
    [_extract] throws only when both have failed. *)
Theorem extract_falls_back_without_rollback
  (P : Platform) (archive dir : string) (w : World) :
  let spawned := set_log (log w ++ [SpawnedTar archive dir]) w in
  (forall d1,
     spawn_tar P archive dir (disk w) = (Ok (), d1) ->
     _extract P archive dir w = (Return (), set_disk d1 spawned))
  /\ (forall what1 d1 r2 d2,
        spawn_tar P archive dir (disk w) = (Failed what1, d1) ->
        targz_extract P archive dir d1 = (r2, d2) ->
        _extract P archive dir w =
        (of_reply r2,
         set_disk d2 (set_log (log w ++ [SpawnedTar archive dir; TargzExtracted archive dir])
                              w)))
  /\ (forall e w',
        _extract P archive dir w = (Throw e, w') ->
        exists what1 d1 what2,
          spawn_tar P archive dir (disk w) = (Failed what1, d1)
          /\ targz_extract P archive dir d1 = (Failed what2, disk w')
          /\ e = External what2).
Proof.
  cbv zeta. unfold _extract. unfold_M.
  destruct (spawn_tar P archive dir (disk w)) as [[[]|what1] d1] eqn:Hspawn; simpl.
  - split; [|split].
    + intros ? [= <-]. reflexivity.
    + intros ? ? ? ? [=].
    + intros ? ? [=].
  - destruct (targz_extract P archive dir d1) as [r2 d2] eqn:Htargz.
    split; [|split].
    + intros ? [=].
    + intros ? ? ? ? [= <- <-]. rewrite Htargz. intros [= <- <-].
      unfold set_disk, set_log; simpl. rewrite <- app_assoc. reflexivity.
    + intros e w' Hrun. exists what1, d1.
      destruct r2 as [[]|what2]; simpl in Hrun; [discriminate|].
      exists what2. injection Hrun as <- <-. simpl. auto.
Qed.

Lemma extract_falls_back_without_rollback_witness :
  exists w',
    _extract demo "/cache/default-1.0.0.tar.gz" "/work/foo" empty_world
    = (Throw (External "unexpected end of file"), w')
    /\ disk w' !! "/work/foo/partial" = Some (File "half")
    /\ log w' = [SpawnedTar "/cache/default-1.0.0.tar.gz" "/work/foo";
                 TargzExtracted "/cache/default-1.0.0.tar.gz" "/work/foo"].
Proof.
  pose proof (proj1 (proj2 (extract_falls_back_without_rollback demo
                              "/cache/default-1.0.0.tar.gz" "/work/foo" empty_world))
                "spawn tar ENOENT" _ (Failed "unexpected end of file") _
                eq_refl eq_refl) as Hrun.
  eexists. split; [exact Hrun|]. split; [vm_compute; reflexivity|reflexivity].
Defined.

(** C3. With options that hold nothing but a non-empty name, and something
    already at the joined path, [createNewExpAsync] throws the
    DIRECTORY_ALREADY_EXISTS error, whose message carries that path, and the
    world is as it was: nothing on disk has changed and nothing was logged,
    so no directory was made, nothing downloaded, extracted or written. *)
Theorem createNewExp_refuses_existing_directory
  (P : Platform) (selectedDir name : string) (extraPackageJsonFields : value) (w : World) :
  name <> EmptyString ->
  is_Some (disk w !! path_join P selectedDir name) ->
  createNewExpAsync P selectedDir extraPackageJsonFields (VObj [("name", VStr name)]) w
  = (Throw (XDLError DIRECTORY_ALREADY_EXISTS
              (directory_exists_message (path_join P selectedDir name))), w).
Proof.
  intros Hname [n Hn]. unfold createNewExpAsync, joi_validate_opts. simpl.
  destruct (String.eqb name EmptyString) eqn:Hempty.
  { apply String.eqb_eq in Hempty. contradiction. }
  unfold_M. simpl. unfold fs_statSync. rewrite Hn. reflexivity.
Qed.

(** A run that goes through: the directory is made, the archive downloaded
    and unpacked, the three files rewritten. *)
Example createNewExp_runs :
  let run := createNewExpAsync demo_unpacking "/work" (VObj [("private", VBool true)])
               (VObj [("name", VStr "foo")]) empty_world in
  run.1 = Return "/work/foo"
  /\ log run.2 =
     [ MadeDir "/work/foo";
       Notified "Downloading project files...";
       MadeDir "/home/dev/.exponent/starter-app-cache";
       Downloaded "https://s3.amazonaws.com/exp-starter-apps/default-1.0.0.tar.gz"
                  "/home/dev/.exponent/starter-app-cache";
       Notified "Extracting project files...";
       SpawnedTar "/home/dev/.exponent/starter-app-cache/default-1.0.0.tar.gz" "/work/foo";
       Notified "Customizing project...";
       WroteFile "/work/foo/package.json"
         "{name:'foo', private:true, version:'0.0.0', description:'Hello Exponent!', author:null}";
       WroteFile "/work/foo/main.js" "register(foo, foo)";
       WroteFile "/work/foo/exp.json" "{slug:'my-new-project', sdkVersion:'8.0.0'}" ].
Proof. split; vm_compute; reflexivity. Qed.

Lemma createNewExp_refuses_existing_directory_witness :
  createNewExpAsync demo "/work" (VObj []) (VObj [("name", VStr "foo")]) world_with_foo
  = (Throw (XDLError DIRECTORY_ALREADY_EXISTS
              "That directory already exists. Please choose a different parent directory or project name. (/work/foo)"),
     world_with_foo).
Proof.
  apply (createNewExp_refuses_existing_directory demo "/work" "foo" (VObj []) world_with_foo).
  - discriminate.
  - vm_compute. eauto.
Defined.

(** ** Properties of the template cache *)

Lemma downloads_app (l1 l2 : list event) :
  downloads (l1 ++ l2) = (downloads l1 + downloads l2)%nat.
Proof.
  induction l1 as [|ev l1 IH]; simpl; [reflexivity|].
  destruct ev; simpl; rewrite IH; reflexivity.
Qed.

Lemma starterAppCacheDirectory_run (P : Platform) (w : World) :
  cache_dir_usable P (disk w) ->
  _starterAppCacheDirectory P w = (Return (cache_dir P), with_cache_dir P w)
  /\ disk (with_cache_dir P w) !! cache_dir P = Some Dir
  /\ downloads (log (with_cache_dir P w)) = downloads (log w)
  /\ (forall p, is_Some (disk w !! p) -> is_Some (disk (with_cache_dir P w) !! p))
  /\ (forall p, p <> cache_dir P -> disk (with_cache_dir P w) !! p = disk w !! p).
Proof.
  intros Huse. unfold _starterAppCacheDirectory, with_cache_dir. fold (cache_dir P).
  unfold_M. unfold mkdirp.
  destruct (disk w !! cache_dir P) as [[|body]|] eqn:Hd; simpl.
  - repeat split; auto.
  - exfalso. exact (Huse body Hd).
  - repeat split.
    + apply lookup_insert_eq.
    + rewrite downloads_app. simpl. lia.
    + intros p Hp. destruct (decide (cache_dir P = p)) as [<-|Hne].
      * rewrite lookup_insert_eq. eauto.
      * rewrite lookup_insert_ne by assumption. exact Hp.
    + intros p Hne. apply lookup_insert_ne. congruence.
Qed.

Lemma with_cache_dir_idem (P : Platform) (w : World) :
  disk w !! cache_dir P = Some Dir -> with_cache_dir P w = w.
Proof. intros Hd. unfold with_cache_dir, mkdirp. rewrite Hd. reflexivity. Qed.

Lemma downloadStarterApp_registry (P : Platform) (name : string) (version : value) (w : World) :
  registry_version P name = Return version ->
  _downloadStarterAppAsync P name w =
  (cacheDir ← _starterAppCacheDirectory P;
   let starterAppPath := path_join P cacheDir (starterApp_filename name version) in
   found ← existsAsync starterAppPath;
   if found : bool then mret starterAppPath else
   let url := "https://s3.amazonaws.com/exp-starter-apps/" +:+ starterApp_filename name version in
   dest ← _starterAppCacheDirectory P;
   external (Downloaded url dest) (download_run P url dest);;
   mret starterAppPath) w.
Proof.
  unfold registry_version, _downloadStarterAppAsync.
  unfold mbind, outcome_bind, M_bind, lift.
  destruct (of_reply (Api_versionsAsync P)) as [versions|]; [|discriminate].
  destruct (member versions "starterApps") as [apps|] eqn:H1; [|discriminate].
  destruct (member apps name) as [app|] eqn:H2; [|discriminate].
  intros H3. rewrite H3. reflexivity.
Qed.

(** A cached archive is returned and nothing is downloaded. *)
Lemma downloadStarterApp_hit (P : Platform) (name : string) (version : value) (w : World) :
  registry_version P name = Return version ->
  cache_dir_usable P (disk w) ->
  is_Some (disk w !! cached_path P name version) ->
  _downloadStarterAppAsync P name w = (Return (cached_path P name version), with_cache_dir P w).
Proof.
  intros Hreg Huse Hhit. rewrite (downloadStarterApp_registry _ _ _ _ Hreg).
  destruct (starterAppCacheDirectory_run P w Huse) as (Hrun & _ & _ & Hkeep & _).
  unfold mbind at 1. unfold M_bind. rewrite Hrun.
  unfold mbind at 1. unfold M_bind, existsAsync. fold (cached_path P name version).
  rewrite bool_decide_eq_true_2 by (apply Hkeep; exact Hhit). reflexivity.
Qed.

(** An archive that is not cached is downloaded, once. *)
Lemma downloadStarterApp_miss (P : Platform) (name : string) (version : value) (w : World)
      (r : reply unit) (d' : files) :
  registry_version P name = Return version ->
  cache_dir_usable P (disk w) ->
  disk w !! cached_path P name version = None ->
  cached_path P name version <> cache_dir P ->
  download_run P (starter_apps_url +:+ starterApp_filename name version) (cache_dir P)
               (disk (with_cache_dir P w)) = (r, d') ->
  _downloadStarterAppAsync P name w =
  (_ ← of_reply r; Return (cached_path P name version),
   set_disk d' (set_log (log (with_cache_dir P w) ++
                         [Downloaded (starter_apps_url +:+ starterApp_filename name version)
                                     (cache_dir P)])
                        (with_cache_dir P w))).
Proof.
  intros Hreg Huse Hmiss Hne Hdl. rewrite (downloadStarterApp_registry _ _ _ _ Hreg).
  destruct (starterAppCacheDirectory_run P w Huse) as (Hrun & Hdir & _ & _ & Hframe).
  unfold mbind at 1. unfold M_bind. rewrite Hrun.
  unfold mbind at 1. unfold M_bind, existsAsync. fold (cached_path P name version).
  rewrite bool_decide_eq_false_2
    by (rewrite (Hframe _ Hne), Hmiss; intros [? [=]]).
  assert (Hrun2 : _starterAppCacheDirectory P (with_cache_dir P w)
                  = (Return (cache_dir P), with_cache_dir P w)).
  { destruct (starterAppCacheDirectory_run P (with_cache_dir P w)) as (Hrun2 & _).
    - intros body Hb. rewrite Hdir in Hb. discriminate.
    - rewrite Hrun2, (with_cache_dir_idem P _ Hdir). reflexivity. }
  unfold mbind at 1. unfold M_bind. rewrite Hrun2.
  unfold_M. fold starter_apps_url. rewrite Hdl.
  destruct r as [[]|what]; reflexivity.
Qed.

(** C4. For a template that the registry knows, with a usable cache
    directory: if the archive name-version.tar.gz is in the cache,
    [_downloadStarterAppAsync] returns its path and downloads nothing, and
    the disk is as it was but for the cache directory itself.  Two calls in
    sequence, the registry unchanged, that start without the archive and
    whose download puts it in place, both return the path and download
    exactly once; two calls that start with the archive download nothing. *)
Theorem starter_app_downloaded_once
  (P : Platform) (name : string) (version : value) (w : World) :
  registry_version P name = Return version ->
  cache_dir_usable P (disk w) ->
  let archive := cached_path P name version in
  (is_Some (disk w !! archive) ->
     exists w',
       _downloadStarterAppAsync P name w = (Return archive, w')
       /\ downloads (log w') = downloads (log w)
       /\ (forall p, p <> cache_dir P -> disk w' !! p = disk w !! p))
  /\ (forall d',
        disk w !! archive = None ->
        archive <> cache_dir P ->
        download_run P (starter_apps_url +:+ starterApp_filename name version) (cache_dir P)
                     (disk (with_cache_dir P w)) = (Ok (), d') ->
        is_Some (d' !! archive) ->
        cache_dir_usable P d' ->
        exists w2,
          fetch_twice P name w = (Return (archive, archive), w2)
          /\ downloads (log w2) = S (downloads (log w)))
  /\ (is_Some (disk w !! archive) ->
        exists w2,
          fetch_twice P name w = (Return (archive, archive), w2)
          /\ downloads (log w2) = downloads (log w)).
Proof.
  intros Hreg Huse archive.
  destruct (starterAppCacheDirectory_run P w Huse) as (_ & Hdir & Hlog & Hkeep & Hframe).
  split; [|split].
  - intros Hhit. exists (with_cache_dir P w).
    split; [apply downloadStarterApp_hit; assumption|]. split; assumption.
  - intros d' Hmiss Hne Hdl Hplaced Huse'.
    pose proof (downloadStarterApp_miss P name version w _ _ Hreg Huse Hmiss Hne Hdl) as H1.
    set (w1 := set_disk d' _) in H1.
    assert (H2 : _downloadStarterAppAsync P name w1 = (Return archive, with_cache_dir P w1)).
    { apply downloadStarterApp_hit; [assumption|exact Huse'|exact Hplaced]. }
    exists (with_cache_dir P w1). split.
    + unfold fetch_twice. unfold mbind at 1. unfold M_bind. rewrite H1. simpl.
      unfold mbind at 1. unfold M_bind. rewrite H2. reflexivity.
    + destruct (starterAppCacheDirectory_run P w1 Huse') as (_ & _ & Hlog1 & _).
      rewrite Hlog1. subst w1. simpl. rewrite downloads_app, Hlog. simpl. lia.
  - intros Hhit.
    pose proof (downloadStarterApp_hit P name version w Hreg Huse Hhit) as H1.
    assert (H2 : _downloadStarterAppAsync P name (with_cache_dir P w)
                 = (Return archive, with_cache_dir P w)).
    { rewrite (downloadStarterApp_hit P name version); try assumption.
      - rewrite (with_cache_dir_idem P _ Hdir). reflexivity.
      - intros body Hb. rewrite Hdir in Hb. discriminate.
      - apply Hkeep. exact Hhit. }
    exists (with_cache_dir P w). split; [|exact Hlog].
    unfold fetch_twice. unfold mbind at 1. unfold M_bind. rewrite H1.
    unfold mbind at 1. unfold M_bind. rewrite H2. reflexivity.
Qed.

Lemma starter_app_downloaded_once_witness :
  exists w2,
    fetch_twice demo "default" empty_world
    = (Return ("/home/dev/.exponent/starter-app-cache/default-1.0.0.tar.gz",
               "/home/dev/.exponent/starter-app-cache/default-1.0.0.tar.gz"), w2)
    /\ downloads (log w2) = 1%nat.
Proof.
  assert (Hreg : registry_version demo "default" = Return (VStr "1.0.0")) by reflexivity.
  assert (Huse : cache_dir_usable demo (disk empty_world)).
  { intros body. vm_compute. discriminate. }
  destruct (starter_app_downloaded_once demo "default" (VStr "1.0.0") empty_world Hreg Huse)
    as (_ & Hcold & _).
  eapply Hcold.
  - vm_compute. reflexivity.
  - vm_compute. discriminate.
  - reflexivity.
  - vm_compute. eauto.
  - intros body. vm_compute. discriminate.
Defined.

(** ** Properties of the list of recent projects *)

Lemma saveRecentExpRoot_run (P : Platform) (root : string) (w : World) :
  saveRecentExpRootAsync P root w =
  let l := remember (path_resolve P root) (default [] (recent_exps_store w)) in
  (Return l, set_recent_exps_store (Some l) w).
Proof. reflexivity. Qed.

Lemma save_all_run (P : Platform) (roots : list string) (w : World) :
  roots <> [] ->
  save_all P roots w =
  (Return (),
   set_recent_exps_store
     (Some (remember_all (path_resolve P <$> roots) (default [] (recent_exps_store w)))) w).
Proof.
  revert w. induction roots as [|root rest IH]; intros w Hne; [contradiction|].
  simpl. unfold mbind, M_bind. rewrite saveRecentExpRoot_run. cbv zeta.
  destruct rest as [|root' rest'].
  - reflexivity.
  - rewrite IH by discriminate. reflexivity.
Qed.

Lemma filter_absent (r : string) (l : list string) :
  r ∉ l -> filter (fun x => x ≠ r) l = l.
Proof.
  induction l as [|x l IH]; intros Hr; [reflexivity|].
  apply not_elem_of_cons in Hr as [Hne Hr].
  rewrite filter_cons_True by congruence. rewrite IH by assumption. reflexivity.
Qed.

Lemma NoDup_take (n : nat) (l : list string) : NoDup l -> NoDup (take n l).
Proof. intros H. eapply sublist_NoDup; [exact H|apply sublist_take]. Qed.

Lemma remember_length (r : string) (l : list string) : (length (remember r l) <= 100)%nat.
Proof. unfold remember. rewrite length_take. lia. Qed.

Lemma remember_head (r : string) (l : list string) : remember r l !! 0%nat = Some r.
Proof. reflexivity. Qed.

Lemma remember_NoDup (r : string) (l : list string) : NoDup l -> NoDup (remember r l).
Proof.
  intros H. apply NoDup_take. apply NoDup_cons. split.
  - rewrite list_elem_of_filter. intros [Hne _]. congruence.
  - apply NoDup_filter. exact H.
Qed.

(** A path that is new to the front part of the list goes before it. *)
Lemma remember_fresh (r : string) (front tail : list string) :
  r ∉ front ->
  exists tail', remember r (take 100 (front ++ tail)) = take 100 (r :: front ++ tail').
Proof.
  intros Hr. unfold remember. rewrite take_app, filter_app.
  rewrite (filter_absent r (take 100 front))
    by (intros Hin; apply Hr; eapply elem_of_sublist; [exact Hin|apply sublist_take]).
  destruct (decide (100 <= length front)%nat) as [Hlong|Hshort].
  - exists []. replace (100 - length front)%nat with 0%nat by lia.
    rewrite take_0, filter_nil, !app_nil_r. simpl. f_equal.
    rewrite take_take. reflexivity.
  - exists (filter (fun x => x ≠ r) (take (100 - length front) tail)).
    rewrite (take_ge front) by lia. reflexivity.
Qed.

Lemma remember_all_front (rs : list string) (l : list string) :
  NoDup rs -> rs <> [] ->
  exists tail, remember_all rs l = take 100 (reverse rs ++ tail).
Proof.
  induction rs as [|r rs IH] using rev_ind; intros Hnd Hne; [contradiction|].
  unfold remember_all. rewrite fold_left_app. simpl. fold (remember_all rs l).
  apply NoDup_app in Hnd as (Hnd & Hfresh & _).
  assert (Hr : r ∉ reverse rs).
  { rewrite elem_of_reverse. intros Hin. apply (Hfresh r Hin). left. }
  rewrite reverse_snoc.
  destruct rs as [|r0 rs0].
  - simpl. exists (filter (fun x => x ≠ r) l). reflexivity.
  - destruct (IH Hnd) as [tail ->]; [discriminate|].
    destruct (remember_fresh r _ tail Hr) as [tail' ->]. exists tail'. reflexivity.
Qed.

(** C5. A call of [saveRecentExpRootAsync] persists the list it found with
    the resolved path removed, put in front, and cut to 100 entries.  The
    persisted list has at most 100 entries and the resolved path first, and
    it has no duplicates if the list found had none (as is the case for an
    empty or missing store and for every list persisted by earlier calls).
    Calls for 105 paths that resolve to distinct paths leave exactly the
    last 100 of them, most recent first. *)
Theorem recent_exps_bounded_deduplicated_recent_first
  (P : Platform) (root : string) (w : World) :
  let found := default [] (recent_exps_store w) in
  let r := path_resolve P root in
  let persisted := take 100 (r :: filter (fun x => x ≠ r) found) in
  saveRecentExpRootAsync P root w = (Return persisted, set_recent_exps_store (Some persisted) w)
  /\ (length persisted <= 100)%nat
  /\ persisted !! 0%nat = Some r
  /\ (NoDup found -> NoDup persisted)
  /\ (forall roots,
        length roots = 105%nat -> NoDup (path_resolve P <$> roots) ->
        exists w',
          save_all P roots w = (Return (), w')
          /\ recent_exps_store w' = Some (take 100 (reverse (path_resolve P <$> roots)))
          /\ length (take 100 (reverse (path_resolve P <$> roots))) = 100%nat).
Proof.
  cbv zeta. fold (remember (path_resolve P root) (default [] (recent_exps_store w))).
  split; [apply saveRecentExpRoot_run|].
  split; [apply remember_length|].
  split; [apply remember_head|].
  split; [apply remember_NoDup|].
  intros roots Hlen Hnd.
  assert (Hne : roots <> []) by (intros ->; discriminate).
  eexists. split; [apply (save_all_run P roots w Hne)|]. simpl.
  destruct (remember_all_front (path_resolve P <$> roots) (default [] (recent_exps_store w)) Hnd)
    as [tail ->].
  { destruct roots; [contradiction|discriminate]. }
  rewrite take_app_le by (rewrite length_reverse, length_fmap; lia).
  split; [reflexivity|].
  rewrite length_take, length_reverse, length_fmap. lia.
Qed.

Lemma recent_exps_bounded_deduplicated_recent_first_witness :
  NoDup (take 100 ("/a" :: filter (fun x => x ≠ "/a") ["/b"; "/a"]))
  /\ exists w',
       save_all demo hundred_and_five_roots (world_with_recent ["/b"; "/a"]) = (Return (), w')
       /\ recent_exps_store w' = Some (take 100 (reverse hundred_and_five_roots))
       /\ length (take 100 (reverse hundred_and_five_roots)) = 100%nat.
Proof.
  destruct (recent_exps_bounded_deduplicated_recent_first demo "/a"
              (world_with_recent ["/b"; "/a"])) as (_ & _ & _ & Hnodup & Hmany).
  split.
  - apply Hnodup. apply (bool_decide_unpack _). vm_compute. exact I.
  - destruct (Hmany hundred_and_five_roots) as (w' & Hrun & Hstore & Hlen).
    + reflexivity.
    + apply (bool_decide_unpack _). vm_compute. exact I.
    + exists w'. split; [exact Hrun|]. split; [exact Hstore|exact Hlen].
Defined.

(** The scenario of the specification: /a, then /b, then /a again. *)
Example recent_a_b_a :
  exists w', save_all demo ["/a"; "/b"; "/a"] empty_world = (Return (), w')
             /\ recent_exps_store w' = Some ["/a"; "/b"].
Proof. eexists. split; vm_compute; reflexivity. Qed.

(** Duplicates that were in the store before are not removed. *)
Example recent_keeps_foreign_duplicates :
  (saveRecentExpRootAsync demo "/a" (world_with_recent ["/x"; "/x"])).1
  = Return ["/a"; "/x"; "/x"].
Proof. vm_compute. reflexivity. Qed.

(** ** Properties of the generated identifiers *)

(** X22. [getLoggedOutPlaceholderUsernameAsync] awaits its write: without a
    truthy value in the store, a value is generated once, both calls return
    it, and the store holds it. *)
Lemma placeholder_username_generated_once (P : Platform) (w : World) :
  truthy (stored_placeholder w) = false ->
  truthy (UrlUtils_randomIdentifierForLoggedOutUser P (draws w)) = true ->
  exists w2,
    twice (getLoggedOutPlaceholderUsernameAsync P) w
    = (Return (UrlUtils_randomIdentifierForLoggedOutUser P (draws w),
               UrlUtils_randomIdentifierForLoggedOutUser P (draws w)), w2)
    /\ draws w2 = S (draws w)
    /\ stored_placeholder w2 = UrlUtils_randomIdentifierForLoggedOutUser P (draws w).
Proof.
  intros Hnone Hgen. unfold stored_placeholder in Hnone.
  unfold twice, getLoggedOutPlaceholderUsernameAsync.
  unfold mbind, M_bind, mret, M_ret, UserSettings_getAsync, UserSettings_setAsync,
    randomIdentifierForLoggedOutUser.
  rewrite Hnone. simpl. rewrite lookup_insert_eq. simpl. rewrite Hgen. simpl.
  eexists. split; [reflexivity|]. split; [reflexivity|].
  unfold stored_placeholder. simpl. rewrite lookup_insert_eq. reflexivity.
Qed.

(** A value that is stored and truthy is returned as it is; nothing is
    generated and nothing is written. *)
Lemma placeholder_username_kept (P : Platform) (w : World) :
  truthy (stored_placeholder w) = true ->
  getLoggedOutPlaceholderUsernameAsync P w = (Return (stored_placeholder w), w).
Proof.
  intros Hsome. unfold stored_placeholder in *.
  unfold getLoggedOutPlaceholderUsernameAsync.
  unfold mbind, M_bind, mret, M_ret, UserSettings_getAsync.
  rewrite Hsome. reflexivity.
Qed.

Lemma project_randomness_kept (P : Platform) (projectRoot : string) (w : World) :
  truthy (stored_randomness w projectRoot) = true ->
  getProjectRandomnessAsync P projectRoot w = (Return (stored_randomness w projectRoot), w).
Proof.
  intros Hsome. unfold stored_randomness in *.
  unfold getProjectRandomnessAsync.
  unfold mbind, M_bind, mret, M_ret, ProjectSettings_readAsync.
  rewrite Hsome. reflexivity.
Qed.

(** The first call for a project without a stored value: a value is drawn
    and returned, and its write is merely in flight. *)
Lemma project_randomness_first_call (P : Platform) (projectRoot : string) (w : World) :
  truthy (stored_randomness w projectRoot) = false ->
  getProjectRandomnessAsync P projectRoot w =
  (Return (UrlUtils_someRandomness P (draws w)),
   set_in_flight
     (in_flight w ++ [mkPending projectRoot "urlRandomness" (UrlUtils_someRandomness P (draws w))])
     (set_draws (S (draws w)) w)).
Proof.
  intros Hnone. unfold stored_randomness in *.
  unfold getProjectRandomnessAsync.
  unfold mbind, M_bind, mret, M_ret, ProjectSettings_readAsync, someRandomness,
    ProjectSettings_setAsync_started.
  rewrite Hnone. reflexivity.
Qed.

(** C6, where the code falls short of it.  [getProjectRandomnessAsync] does
    not await [ProjectSettings.setAsync]: it returns while the write is in
    flight.  For a project without a stored value, a second call that reads
    the settings before that write has landed draws again: two values are
    generated, the calls return the first and the second draw, and the
    store still has no value.  Had the write landed in between, the second
    call would return the first draw and nothing more would be drawn. *)
Theorem project_randomness_drawn_again_while_write_in_flight
  (P : Platform) (projectRoot : string) (w : World) :
  truthy (stored_randomness w projectRoot) = false ->
  in_flight w = [] ->
  (exists w2,
     twice (getProjectRandomnessAsync P projectRoot) w
     = (Return (UrlUtils_someRandomness P (draws w),
                UrlUtils_someRandomness P (S (draws w))), w2)
     /\ draws w2 = S (S (draws w))
     /\ stored_randomness w2 projectRoot = stored_randomness w projectRoot)
  /\ (truthy (UrlUtils_someRandomness P (draws w)) = true ->
      exists w2,
        twice_landed (getProjectRandomnessAsync P projectRoot) w
        = (Return (UrlUtils_someRandomness P (draws w),
                   UrlUtils_someRandomness P (draws w)), w2)
        /\ draws w2 = S (draws w)
        /\ stored_randomness w2 projectRoot = UrlUtils_someRandomness P (draws w)).
Proof.
  intros Hnone Hquiet. split.
  - unfold twice. unfold mbind at 1. unfold M_bind.
    rewrite (project_randomness_first_call P projectRoot w Hnone).
    unfold mbind at 1. unfold M_bind.
    rewrite project_randomness_first_call by exact Hnone.
    eexists. split; [reflexivity|]. split; reflexivity.
  - intros Hgen. unfold twice_landed. unfold mbind at 1. unfold M_bind.
    rewrite (project_randomness_first_call P projectRoot w Hnone).
    unfold mbind at 1. unfold M_bind.
    set (w1 := land _).
    assert (Hstored : stored_randomness w1 projectRoot = UrlUtils_someRandomness P (draws w)).
    { subst w1. unfold land, stored_randomness. simpl. rewrite Hquiet. simpl.
      unfold apply_set. simpl. rewrite lookup_insert_eq. simpl.
      rewrite lookup_insert_eq. reflexivity. }
    unfold mbind at 1. unfold M_bind.
    rewrite project_randomness_kept by (rewrite Hstored; exact Hgen).
    rewrite Hstored. eexists. split; [reflexivity|]. split; [reflexivity|exact Hstored].
Qed.

Lemma project_randomness_drawn_again_while_write_in_flight_witness :
  exists w2,
    twice (getProjectRandomnessAsync demo "/app") empty_world
    = (Return (VStr "rnd-0", VStr "rnd-1"), w2)
    /\ draws w2 = 2%nat
    /\ stored_randomness w2 "/app" = VUndefined.
Proof.
  destruct (project_randomness_drawn_again_while_write_in_flight demo "/app" empty_world)
    as [(w2 & Hrun & Hdraws & Hstored) _].
  - reflexivity.
  - reflexivity.
  - exists w2. split; [exact Hrun|]. split; [exact Hdraws|exact Hstored].
Defined.


(** ** Properties of readable paths *)

Lemma substring_0_app (a b : string) :
  String.substring 0 (String.length a) (a +:+ b) = a.
Proof. induction a as [|c a IH]; simpl; [destruct b; reflexivity|]. rewrite IH. reflexivity. Qed.

Lemma substring_0_all (m : nat) (s : string) :
  (String.length s <= m)%nat -> String.substring 0 m s = s.
Proof.
  revert m. induction s as [|c s IH]; intros m Hm; [destruct m; reflexivity|].
  destruct m as [|m]; simpl in *; [lia|]. rewrite IH by lia. reflexivity.
Qed.

Lemma substring_skip_app (a b : string) (m : nat) :
  String.substring (String.length a) m (a +:+ b) = String.substring 0 m b.
Proof. induction a as [|c a IH]; simpl; [reflexivity|]. exact IH. Qed.

Lemma length_app_string (a b : string) :
  String.length (a +:+ b) = (String.length a + String.length b)%nat.
Proof. induction a as [|c a IH]; simpl; [reflexivity|]. rewrite IH. reflexivity. Qed.

(** X1. A path that starts with the home directory is shown with [~] in
    place of that start, whatever follows it. *)
Theorem makePathReadable_under_home (proc : Process) (rest : string) :
  makePathReadable proc (getHomeDir proc +:+ rest) = "~" +:+ rest.
Proof.
  unfold makePathReadable. rewrite substring_0_app, String.eqb_refl.
  rewrite substring_skip_app, substring_0_all; [reflexivity|].
  rewrite length_app_string. lia.
Qed.

(** X2. Without a home directory (the variable unset or empty) every path
    is taken to start with it and gets a [~] in front. *)
Theorem makePathReadable_without_home (proc : Process) (pth : string) :
  getHomeDir proc = EmptyString ->
  makePathReadable proc pth = "~" +:+ pth.
Proof.
  intros Hhome. pose proof (makePathReadable_under_home proc pth) as H.
  rewrite Hhome in H. exact H.
Qed.

Lemma makePathReadable_without_home_witness :
  makePathReadable homeless_process "/work/foo" = "~/work/foo".
Proof. apply makePathReadable_without_home. reflexivity. Defined.

(** X3. A path that does not start with the text of the home directory is
    left as it is. *)
Theorem makePathReadable_elsewhere (proc : Process) (pth : string) :
  String.prefix (getHomeDir proc) pth = false ->
  makePathReadable proc pth = pth.
Proof.
  intros Hpre. unfold makePathReadable.
  destruct (String.eqb _ _) eqn:Heq; [|reflexivity].
  apply String.eqb_eq in Heq. apply String.prefix_correct in Heq. congruence.
Qed.

Lemma makePathReadable_elsewhere_witness :
  makePathReadable demo_process "/work/foo" = "/work/foo".
Proof. apply makePathReadable_elsewhere. reflexivity. Defined.

(** ** Properties of project descriptions *)

Lemma member_defined (v : value) (k : string) :
  nullish v = false -> member v k = Return (prop v k).
Proof. unfold member. intros ->. reflexivity. Qed.

Lemma member_nullish (v : value) (k : string) :
  nullish v = true -> member v k = Throw TypeError.
Proof. unfold member. intros ->. reflexivity. Qed.

Lemma truthy_defined (v : value) : truthy v = true -> nullish v = false.
Proof. destruct v; simpl; congruence. Qed.

(** X4. When exp.json is read and is not null, the description takes name,
    description and icon from it, and package.json is not looked at: the
    result is the same whether package.json is there or not. *)
Theorem expInfo_from_exp_json
  (P : Platform) (proc : Process) (root : string) (fs : files) (exp : value) :
  readAsync P (expJsonForRoot P root) fs = Return exp ->
  nullish exp = false ->
  expInfoAsync P proc root fs =
  Return (description_of proc root (prop exp "name") (prop exp "description")
            (prop exp "iconUrl")).
Proof.
  intros He Hn. unfold expInfoAsync. rewrite He. unfold_outcome.
  rewrite !(member_defined _ _ Hn). reflexivity.
Qed.

Lemma expInfo_from_exp_json_witness :
  expInfoAsync gallery demo_process "/home/dev/gallery" projects_disk =
  Return (VObj [("readableRoot", VStr "~/gallery");
                ("root", VStr "/home/dev/gallery");
                ("name", VStr "Gallery");
                ("description", VStr "Pictures");
                ("icon", VStr "https://example.org/g.png")]).
Proof.
  apply (expInfo_from_exp_json gallery demo_process "/home/dev/gallery" projects_disk
           (VObj [("name", VStr "Gallery"); ("description", VStr "Pictures");
                  ("iconUrl", VStr "https://example.org/g.png")]));
    vm_compute; reflexivity.
Defined.

Lemma expInfo_without_exp_json
  (P : Platform) (proc : Process) (root : string) (fs : files) :
  ~ usable P (expJsonForRoot P root) fs ->
  expInfoAsync P proc root fs =
  (pkg ← readAsync P (packageJsonForRoot P root) fs;
   name ← member pkg "name";
   Return (description_of proc root name (prop pkg "description")
             (if truthy (prop pkg "exp") then prop (prop pkg "exp") "iconUrl"
              else prop pkg "exp"))).
Proof.
  intros Hno. unfold expInfoAsync. unfold_outcome. unfold outcome_catch.
  destruct (readAsync P (expJsonForRoot P root) fs) as [exp|e] eqn:He.
  - destruct (nullish exp) eqn:Hn.
    + rewrite (member_nullish _ _ Hn).
      destruct (readAsync P (packageJsonForRoot P root) fs) as [pkg|e']; [|reflexivity].
      destruct (nullish pkg) eqn:Hp.
      * rewrite !(member_nullish _ _ Hp). reflexivity.
      * rewrite !(member_defined _ _ Hp).
        destruct (truthy (prop pkg "exp")) eqn:Ht; [|reflexivity].
        rewrite (member_defined _ _ (truthy_defined _ Ht)). reflexivity.
    + exfalso. apply Hno. exists exp. auto.
  - destruct (readAsync P (packageJsonForRoot P root) fs) as [pkg|e']; [|reflexivity].
    destruct (nullish pkg) eqn:Hp.
    + rewrite !(member_nullish _ _ Hp). reflexivity.
    + rewrite !(member_defined _ _ Hp).
      destruct (truthy (prop pkg "exp")) eqn:Ht; [|reflexivity].
      rewrite (member_defined _ _ (truthy_defined _ Ht)). reflexivity.
Qed.

(** X5. When exp.json cannot be used (it is not read, or it is null) and
    package.json is read and is not null, the description takes name and
    description from package.json and the icon from its [exp] section: the
    section's [iconUrl] if the section is truthy, the section's own falsy
    value otherwise. *)
Theorem expInfo_from_package_json
  (P : Platform) (proc : Process) (root : string) (fs : files) (pkg : value) :
  ~ usable P (expJsonForRoot P root) fs ->
  readAsync P (packageJsonForRoot P root) fs = Return pkg ->
  nullish pkg = false ->
  expInfoAsync P proc root fs =
  Return (description_of proc root (prop pkg "name") (prop pkg "description")
            (if truthy (prop pkg "exp") then prop (prop pkg "exp") "iconUrl"
             else prop pkg "exp")).
Proof.
  intros Hno Hp Hn. rewrite (expInfo_without_exp_json P proc root fs Hno), Hp.
  unfold_outcome. rewrite (member_defined _ _ Hn). reflexivity.
Qed.

Lemma expInfo_from_package_json_witness :
  expInfoAsync gallery demo_process "/home/dev/notes" projects_disk =
  Return (VObj [("readableRoot", VStr "~/notes");
                ("root", VStr "/home/dev/notes");
                ("name", VStr "notes");
                ("description", VStr "Notes");
                ("icon", VStr "https://example.org/n.png")]).
Proof.
  apply (expInfo_from_package_json gallery demo_process "/home/dev/notes" projects_disk
           (VObj [("name", VStr "notes"); ("description", VStr "Notes");
                  ("exp", VObj [("iconUrl", VStr "https://example.org/n.png")])])).
  - intros (v & Hv & _). vm_compute in Hv. discriminate.
  - vm_compute. reflexivity.
  - reflexivity.
Defined.

(** X6. A project can be described exactly when one of its two manifests
    can be used; [expInfoSafeAsync] gives null exactly when none can. *)
Theorem describable_iff_a_manifest_usable
  (P : Platform) (proc : Process) (root : string) (fs : files) :
  (describable P proc fs root <->
   usable P (expJsonForRoot P root) fs \/ usable P (packageJsonForRoot P root) fs)
  /\ (expInfoSafeAsync P proc root fs = Return VNull <->
      ~ (usable P (expJsonForRoot P root) fs \/ usable P (packageJsonForRoot P root) fs)).
Proof.
  assert (Hdec : usable P (expJsonForRoot P root) fs \/ ~ usable P (expJsonForRoot P root) fs).
  { destruct (readAsync P (expJsonForRoot P root) fs) as [exp|e] eqn:He.
    - destruct (nullish exp) eqn:Hn; [right|left; exists exp; auto].
      intros (v & Hv & Hvn). congruence.
    - right. intros (v & Hv & _). congruence. }
  assert (Hcases :
    (exists info, expInfoAsync P proc root fs = Return info /\ truthy info = true
                  /\ (usable P (expJsonForRoot P root) fs
                      \/ usable P (packageJsonForRoot P root) fs))
    \/ (exists e, expInfoAsync P proc root fs = Throw e
                  /\ ~ (usable P (expJsonForRoot P root) fs
                        \/ usable P (packageJsonForRoot P root) fs))).
  { destruct Hdec as [Hexp|Hno].
    - left. destruct Hexp as (exp & He & Hn).
      eexists. split; [apply (expInfo_from_exp_json P proc root fs exp He Hn)|].
      split; [reflexivity|]. left. exists exp. auto.
    - rewrite (expInfo_without_exp_json P proc root fs Hno). unfold_outcome.
      destruct (readAsync P (packageJsonForRoot P root) fs) as [pkg|e] eqn:Hp.
      + destruct (nullish pkg) eqn:Hn.
        * right. rewrite (member_nullish _ _ Hn). eexists. split; [reflexivity|].
          intros [Hu|(v & Hv & Hvn)]; [tauto|congruence].
        * left. rewrite (member_defined _ _ Hn). eexists. split; [reflexivity|].
          split; [reflexivity|]. right. exists pkg. auto.
      + right. eexists. split; [reflexivity|].
        intros [Hu|(v & Hv & _)]; [tauto|congruence]. }
  unfold describable, expInfoSafeAsync, outcome_catch.
  destruct Hcases as [(info & -> & Ht & Hu)|(e & -> & Hno)].
  - split; split; try tauto; eauto.
    intros [= ->]. discriminate.
  - split; split; try tauto.
    intros (info & Hinfo). discriminate.
Qed.

(** ** Properties of the list of recent valid projects *)

Lemma expInfo_truthy (P : Platform) (proc : Process) (root : string) (fs : files) (info : value) :
  expInfoAsync P proc root fs = Return info -> truthy info = true.
Proof.
  unfold expInfoAsync. unfold_outcome.
  destruct (outcome_catch _ _) as [[[name description] icon]|e]; [|discriminate].
  intros [= <-]. reflexivity.
Qed.

Lemma Promise_all_safe (P : Platform) (proc : Process) (fs : files) (roots : list string) :
  exists results,
    Promise_all ((fun root => expInfoSafeAsync P proc root fs) <$> roots) = Return results
    /\ filter (fun result => Is_true (truthy result)) results = descriptions P proc fs roots.
Proof.
  induction roots as [|root rest (results & Hall & Hfilter)]; [exists []; split; reflexivity|].
  rewrite fmap_cons. cbn [Promise_all]. rewrite Hall.
  unfold expInfoSafeAsync, outcome_catch. unfold_outcome.
  destruct (expInfoAsync P proc root fs) as [info|e] eqn:Hinfo.
  - exists (info :: results). split; [reflexivity|].
    rewrite filter_cons_True by (rewrite (expInfo_truthy _ _ _ _ _ Hinfo); exact I).
    rewrite Hfilter. simpl. rewrite Hinfo. reflexivity.
  - exists (VNull :: results). split; [reflexivity|].
    rewrite filter_cons_False by (simpl; tauto). simpl. rewrite Hinfo. exact Hfilter.
Qed.

Lemma recentValidExps_run (P : Platform) (proc : Process) (w : World) :
  recentValidExpsAsync P proc w =
  (Return (take 5 (descriptions P proc (disk w) (default [] (recent_exps_store w)))), w).
Proof.
  unfold recentValidExpsAsync. unfold_M. unfold recentExps_readAsync.
  destruct (Promise_all_safe P proc (disk w) (default [] (recent_exps_store w)))
    as (results & -> & ->). reflexivity.
Qed.




Lemma descriptions_app (P : Platform) (proc : Process) (fs : files) (l1 l2 : list string) :
  descriptions P proc fs (l1 ++ l2)
  = (descriptions P proc fs l1 ++ descriptions P proc fs l2)%list.
Proof.
  induction l1 as [|root rest IH]; simpl; [reflexivity|].
  destruct (expInfoAsync P proc root fs); rewrite IH; reflexivity.
Qed.

Lemma descriptions_none (P : Platform) (proc : Process) (fs : files) (l : list string) :
  Forall (fun root => ~ describable P proc fs root) l -> descriptions P proc fs l = [].
Proof.
  induction 1 as [|root rest Hroot _ IH]; simpl; [reflexivity|].
  destruct (expInfoAsync P proc root fs) as [info|e] eqn:Hinfo; [|exact IH].
  exfalso. apply Hroot. exists info. exact Hinfo.
Qed.

(** X8. Stored projects that cannot be described are passed over and do not
    count towards the five: with any number of them at the front of the
    store, the result is what it would be without them. *)
Theorem recentValidExps_skips_undescribable
  (P : Platform) (proc : Process) (w : World) (gone rest : list string) :
  recent_exps_store w = Some (gone ++ rest)%list ->
  Forall (fun root => ~ describable P proc (disk w) root) gone ->
  (recentValidExpsAsync P proc w).1
  = (recentValidExpsAsync P proc (set_recent_exps_store (Some rest) w)).1.
Proof.
  intros Hstore Hgone. rewrite !recentValidExps_run. simpl. rewrite Hstore. simpl.
  rewrite descriptions_app, (descriptions_none _ _ _ _ Hgone). reflexivity.
Qed.

(** X9. After [saveRecentExpRootAsync] for a project that can be described,
    [recentValidExpsAsync] lists that project first. *)
Theorem saved_project_is_listed_first
  (P : Platform) (proc : Process) (root : string) (w : World) (info : value) :
  expInfoAsync P proc (path_resolve P root) (disk w) = Return info ->
  let w1 := (saveRecentExpRootAsync P root w).2 in
  exists others, recentValidExpsAsync P proc w1 = (Return (info :: others), w1).
Proof.
  intros Hinfo w1. rewrite recentValidExps_run.
  subst w1. rewrite saveRecentExpRoot_run. cbv zeta. simpl.
  unfold remember. simpl. rewrite Hinfo. simpl. eauto.
Qed.

Lemma recentValidExps_skips_undescribable_witness :
  (recentValidExpsAsync gallery demo_process
     (projects_world ["/home/dev/gone"; "/home/dev/missing"; "/home/dev/gallery"])).1
  = Return [VObj [("readableRoot", VStr "~/gallery");
                  ("root", VStr "/home/dev/gallery");
                  ("name", VStr "Gallery");
                  ("description", VStr "Pictures");
                  ("icon", VStr "https://example.org/g.png")]].
Proof.
  rewrite (recentValidExps_skips_undescribable gallery demo_process _
             ["/home/dev/gone"; "/home/dev/missing"] ["/home/dev/gallery"]).
  - vm_compute. reflexivity.
  - reflexivity.
  - repeat constructor; intros [info Hinfo]; vm_compute in Hinfo; discriminate.
Defined.

Lemma saved_project_is_listed_first_witness :
  exists others,
    recentValidExpsAsync gallery demo_process
      (saveRecentExpRootAsync gallery "/home/dev/notes"
         (projects_world ["/home/dev/gallery"])).2
    = (Return (VObj [("readableRoot", VStr "~/notes");
                     ("root", VStr "/home/dev/notes");
                     ("name", VStr "notes");
                     ("description", VStr "Notes");
                     ("icon", VStr "https://example.org/n.png")] :: others),
       (saveRecentExpRootAsync gallery "/home/dev/notes"
          (projects_world ["/home/dev/gallery"])).2).
Proof.
  apply (saved_project_is_listed_first gallery demo_process "/home/dev/notes"
           (projects_world ["/home/dev/gallery"])).
  vm_compute. reflexivity.
Defined.

(** ** More properties of the list of recent projects *)

Lemma filter_filter_same (r : string) (l : list string) :
  filter (fun x => x ≠ r) (filter (fun x => x ≠ r) l) = filter (fun x => x ≠ r) l.
Proof.
  apply filter_absent. rewrite list_elem_of_filter. intros [Hne _]. congruence.
Qed.

Lemma remember_twice (r : string) (l : list string) :
  remember r (remember r l) = remember r l.
Proof.
  unfold remember. simpl. rewrite filter_cons_False by tauto.
  set (others := filter (fun x => x ≠ r) l).
  rewrite (filter_absent r (take 99 others)).
  - rewrite take_take. reflexivity.
  - intros Hin. eapply elem_of_sublist in Hin; [|apply sublist_take].
    subst others. apply list_elem_of_filter in Hin as [Hne _]. congruence.
Qed.

(** X10. Saving the same project twice in a row leaves the store as saving
    it once does. *)
Theorem saveRecentExpRoot_twice_is_once (P : Platform) (root : string) (w : World) :
  save_all P [root; root] w = save_all P [root] w.
Proof.
  rewrite !save_all_run by discriminate. simpl. rewrite remember_twice. reflexivity.
Qed.

(** X11. What [saveRecentExpRootAsync] persists after the saved path is a
    sublist of what it found: other paths keep their order and none is
    made up.  With at most 99 other paths in the list found, none of them
    is dropped; a path is only dropped from the end of a full list. *)
Theorem saveRecentExpRoot_keeps_the_others (P : Platform) (root : string) (w : World) :
  let found := default [] (recent_exps_store w) in
  let r := path_resolve P root in
  let others := filter (fun x => x ≠ r) found in
  exists persisted,
    saveRecentExpRootAsync P root w = (Return persisted, set_recent_exps_store (Some persisted) w)
    /\ persisted = r :: take 99 others
    /\ take 99 others `sublist_of` found
    /\ ((length others <= 99)%nat -> forall x, x ∈ found -> x ∈ persisted).
Proof.
  cbv zeta. eexists. split; [apply saveRecentExpRoot_run|]. cbv zeta. unfold remember.
  split; [reflexivity|]. split.
  - etransitivity; [apply sublist_take|apply sublist_filter].
  - intros Hlen x Hx. simpl. rewrite take_ge by exact Hlen.
    destruct (decide (x = path_resolve P root)) as [->|Hne]; [left|right].
    apply list_elem_of_filter. auto.
Qed.

Lemma saveRecentExpRoot_keeps_the_others_witness :
  "/c" ∈ default [] (recent_exps_store
                       (saveRecentExpRootAsync demo "/a"
                          (world_with_recent ["/b"; "/a"; "/c"])).2).
Proof.
  destruct (saveRecentExpRoot_keeps_the_others demo "/a" (world_with_recent ["/b"; "/a"; "/c"]))
    as (persisted & Hrun & _ & _ & Hkeep).
  rewrite Hrun. simpl. apply Hkeep.
  - vm_compute. lia.
  - simpl. do 2 right. left.
Defined.

(** ** More properties of manifest resolution *)

Lemma expConfig_falsy_standalone_witness :
  expConfigForRootAsync demo "/app" null_exp_json
  = Return (VObj [("sdkVersion", VStr "7.0.0"); ("version", VStr "2.0.0");
                  ("entryPoint", VStr "legacy.js")]).
Proof.
  apply (expConfig_falsy_standalone demo "/app" null_exp_json
           (VObj [("name", VStr "app"); ("main", VStr "app.js");
                  ("exp", VObj [("sdkVersion", VStr "7.0.0"); ("version", VStr "2.0.0");
                                ("entryPoint", VStr "legacy.js")])]) VNull);
    vm_compute; reflexivity.
Defined.

Lemma determineEntryPoint_run (P : Platform) (root : string) (fs : files) (pkg : value) :
  readAsync P (packageJsonForRoot P root) fs = Return pkg ->
  nullish pkg = false ->
  exists cfg,
    expConfigForRootAsync P root fs = Return cfg
    /\ determineEntryPointAsync P root fs =
       Return (if truthy (prop cfg "entryPoint") then prop cfg "entryPoint"
               else js_or (prop pkg "main") (VStr "index.js")).
Proof.
  intros Hp Hn. destruct (expConfig_total P root fs) as [cfg Hcfg].
  exists cfg. split; [exact Hcfg|].
  unfold determineEntryPointAsync. rewrite Hcfg, Hp. unfold_outcome.
  rewrite (member_defined _ _ Hn).
  destruct (truthy cfg) eqn:Hc.
  - rewrite (member_truthy _ _ Hc).
    destruct (truthy (prop cfg "entryPoint")); reflexivity.
  - rewrite Hc. destruct cfg; simpl in *; try discriminate; reflexivity.
Qed.

(** X12. Whatever [determineEntryPointAsync] returns is truthy: it is never
    undefined, null or an empty string. *)
Theorem determineEntryPoint_truthy (P : Platform) (root : string) (fs : files) (v : value) :
  determineEntryPointAsync P root fs = Return v -> truthy v = true.
Proof.
  intros Hrun.
  destruct (readAsync P (packageJsonForRoot P root) fs) as [pkg|e] eqn:Hp.
  - destruct (nullish pkg) eqn:Hn.
    + exfalso. unfold determineEntryPointAsync in Hrun.
      rewrite expConfig_resolved, Hp in Hrun. unfold_outcome.
      rewrite (member_nullish _ _ Hn) in Hrun. discriminate.
    + destruct (determineEntryPoint_run P root fs pkg Hp Hn) as (cfg & _ & Hv).
      rewrite Hv in Hrun. injection Hrun as <-.
      destruct (truthy (prop cfg "entryPoint")) eqn:He; [exact He|].
      unfold js_or. destruct (truthy (prop pkg "main")) eqn:Hm; [exact Hm|reflexivity].
  - exfalso. unfold determineEntryPointAsync in Hrun.
    rewrite expConfig_resolved, Hp in Hrun. discriminate.
Qed.

Lemma determineEntryPoint_truthy_witness :
  determineEntryPointAsync demo "/app" both_manifests = Return (VStr "main.js")
  /\ truthy (VStr "main.js") = true.
Proof.
  assert (Hrun : determineEntryPointAsync demo "/app" both_manifests = Return (VStr "main.js"))
    by (vm_compute; reflexivity).
  split; [exact Hrun|].
  exact (determineEntryPoint_truthy demo "/app" both_manifests _ Hrun).
Defined.

(** X13. [determineEntryPointAsync] does not survive a package.json that
    cannot be read: it fails with the reader's error, and with a TypeError
    when package.json holds null, whatever exp.json says. *)
Theorem determineEntryPoint_needs_package_json (P : Platform) (root : string) (fs : files) :
  (forall e, readAsync P (packageJsonForRoot P root) fs = Throw e ->
             determineEntryPointAsync P root fs = Throw e)
  /\ (forall pkg, readAsync P (packageJsonForRoot P root) fs = Return pkg ->
                  nullish pkg = true ->
                  determineEntryPointAsync P root fs = Throw TypeError).
Proof.
  split.
  - intros e Hp. unfold determineEntryPointAsync. rewrite expConfig_resolved, Hp. reflexivity.
  - intros pkg Hp Hn. unfold determineEntryPointAsync. rewrite expConfig_resolved, Hp.
    unfold_outcome. rewrite (member_nullish _ _ Hn). reflexivity.
Qed.

Lemma determineEntryPoint_needs_package_json_witness :
  determineEntryPointAsync demo "/app" only_exp_json = Throw (External "ENOENT").
Proof.
  apply (proj1 (determineEntryPoint_needs_package_json demo "/app" only_exp_json)).
  vm_compute. reflexivity.
Defined.

(** ** More properties of the publish descriptor *)

(** The shape of every descriptor that is returned. *)
Lemma getPublishInfo_returned (P : Platform) (root : string) (fs : files) (info : PublishInfo) :
  getPublishInfoAsync P root fs = Return info ->
  exists u url,
    User_getUsernameAsync P = Ok u /\ truthy u = true /\
    let d := derive (read_pkg_exp P root fs).1 (read_pkg_exp P root fs).2 in
    first_missing d.1.1.2 d.1.2 d.2 = None /\
    info = {| args := {| username := u;
                         localPackageName := d.1.2;
                         packageVersion := d.2;
                         remoteUsername := u;
                         remotePackageName := d.1.2;
                         remoteFullPackageName := "@" +:+ ToString u +:+ "/" +:+ ToString d.1.2;
                         ngrokUrl := url;
                         sdkVersion := prop d.1.1.2 "sdkVersion" |};
              body := d.1.1.1 |}.
Proof.
  intros Hok.
  destruct (User_getUsernameAsync P) as [u|what] eqn:Hu;
    [|unfold getPublishInfoAsync in Hok; rewrite Hu in Hok; discriminate].
  destruct (truthy u) eqn:Ht;
    [|unfold getPublishInfoAsync in Hok; rewrite Hu in Hok; simpl in Hok;
      unfold_outcome; rewrite Ht in Hok; discriminate].
  pose proof (getPublishInfo_checks P root fs u Hu Ht) as Hchk.
  cbv zeta. destruct (derive _ _) as [[[pkg cfg] name] version]. simpl.
  destruct (first_missing cfg name version) as [f|]; [congruence|].
  rewrite Hchk in Hok. unfold_outcome.
  destruct (determineEntryPointAsync P root fs) as [ep|]; [|discriminate].
  destruct (UrlUtils_constructPublishUrlAsync P root ep) as [url|]; simpl in Hok; [|discriminate].
  injection Hok as <-. exists u, url. auto.
Qed.

(** X14. In a descriptor that is returned, the local and the remote package
    name are one value, which is truthy, and the full name is @, the
    username, a slash and that name.  The name is exp.json's [slug] when
    exp.json was read as an object, and package.json's [name] when exp.json
    could not be read. *)
Theorem publish_name_rule (P : Platform) (root : string) (fs : files) (info : PublishInfo) :
  getPublishInfoAsync P root fs = Return info ->
  let name := remotePackageName (args info) in
  localPackageName (args info) = name
  /\ truthy name = true
  /\ User_getUsernameAsync P = Ok (username (args info))
  /\ remoteUsername (args info) = username (args info)
  /\ remoteFullPackageName (args info)
     = "@" +:+ ToString (username (args info)) +:+ "/" +:+ ToString name
  /\ (forall exp_fields,
        readAsync P (expJsonForRoot P root) fs = Return (VObj exp_fields) ->
        name = prop (VObj exp_fields) "slug")
  /\ (forall pkg e,
        readAsync P (packageJsonForRoot P root) fs = Return pkg ->
        readAsync P (expJsonForRoot P root) fs = Throw e ->
        name = prop pkg "name").
Proof.
  intros Hok. destruct (getPublishInfo_returned P root fs info Hok)
    as (u & url & Hu & Ht & Hnone & ->). cbv zeta. simpl.
  set (d := derive _ _) in *.
  assert (Hname : truthy d.1.2 = true).
  { unfold first_missing in Hnone.
    destruct (has_sdkVersion d.1.1.2); [|discriminate].
    destruct (truthy d.1.2); [reflexivity|discriminate]. }
  repeat split; auto.
  - intros exp_fields He. subst d.
    destruct (readAsync P (packageJsonForRoot P root) fs) as [pkg|e] eqn:Hp.
    + rewrite (read_pkg_exp_both _ _ _ _ _ Hp He) in *. unfold derive in *. simpl in *.
      destruct (truthy pkg); [reflexivity|discriminate].
    + rewrite (read_pkg_exp_no_pkg _ _ _ _ Hp) in Hname. discriminate.
  - intros pkg e Hp He. subst d.
    rewrite (read_pkg_exp_only_pkg _ _ _ _ _ Hp He) in *. unfold derive in *. simpl in *.
    destruct (truthy pkg); simpl in *; [|discriminate].
    destruct (truthy (prop pkg "exp")); simpl in *; [reflexivity|discriminate].
Qed.

Lemma publish_name_rule_witness :
  exists info,
    getPublishInfoAsync demo "/app" both_manifests = Return info
    /\ remotePackageName (args info) = VStr "my-app"
    /\ remoteFullPackageName (args info) = "@dev/my-app".
Proof.
  destruct (getPublishInfoAsync demo "/app" both_manifests) as [info|e] eqn:Hrun;
    [|vm_compute in Hrun; discriminate].
  exists info. split; [reflexivity|].
  destruct (publish_name_rule demo "/app" both_manifests info Hrun)
    as (_ & _ & Huser & _ & Hfull & Hslug & _).
  assert (Hname : remotePackageName (args info) = VStr "my-app").
  { apply (Hslug [("slug", VStr "my-app"); ("sdkVersion", VStr "8.0.0");
                  ("version", VStr "3.0.0"); ("entryPoint", VStr "main.js")]).
    vm_compute. reflexivity. }
  split; [exact Hname|].
  rewrite Hfull, Hname. injection Huser as <-. reflexivity.
Defined.

(** X15. A descriptor that is returned agrees with the other functions: its
    SDK version is that of the config which [expConfigForRootAsync] returns,
    its body is package.json as parsed, and SDK version and version are
    truthy. *)
Theorem publish_descriptor_from_resolved_config
  (P : Platform) (root : string) (fs : files) (info : PublishInfo) :
  getPublishInfoAsync P root fs = Return info ->
  exists cfg,
    expConfigForRootAsync P root fs = Return cfg
    /\ sdkVersion (args info) = prop cfg "sdkVersion"
    /\ truthy (sdkVersion (args info)) = true
    /\ truthy (packageVersion (args info)) = true
    /\ readAsync P (packageJsonForRoot P root) fs = Return (body info).
Proof.
  intros Hok. destruct (getPublishInfo_returned P root fs info Hok)
    as (u & url & Hu & Ht & Hnone & ->). simpl.
  eexists. split; [apply expConfig_resolved|].
  unfold first_missing, has_sdkVersion in Hnone. unfold read_pkg_exp in *.
  destruct (readAsync P (packageJsonForRoot P root) fs) as [pkg|e] eqn:Hp;
    [|simpl in Hnone; discriminate].
  destruct (readAsync P (expJsonForRoot P root) fs) as [exp|e] eqn:He; simpl in *.
  - unfold derive, resolved in *.
    destruct (truthy exp) eqn:Hexp; simpl in *.
    + destruct (truthy pkg) eqn:Hpkg; simpl in *.
      * rewrite Hexp in Hnone. simpl in Hnone.
        destruct (truthy (prop exp "sdkVersion")); [|discriminate]. simpl in Hnone.
        destruct (truthy (prop exp "slug")); [|discriminate]. simpl in Hnone.
        destruct (truthy (js_or (prop pkg "version") (prop exp "version")));
          [auto|discriminate].
      * rewrite Hexp in Hnone. simpl in Hnone.
        destruct (truthy (prop exp "sdkVersion")); discriminate.
    + destruct (truthy pkg) eqn:Hpkg; simpl in *.
      * destruct (truthy (prop pkg "exp")) eqn:Hemb; simpl in *.
        -- rewrite Hemb in Hnone. simpl in Hnone.
           destruct (truthy (prop (prop pkg "exp") "sdkVersion")); [|discriminate].
           simpl in Hnone.
           destruct (truthy (prop pkg "name")); [|discriminate]. simpl in Hnone.
           destruct (truthy (prop pkg "version")); [auto|discriminate].
        -- rewrite Hexp in Hnone. discriminate.
      * rewrite Hexp in Hnone. discriminate.
  - unfold derive, resolved in *. simpl in *.
    destruct (truthy pkg) eqn:Hpkg; simpl in *; [|discriminate].
    destruct (truthy (prop pkg "exp")) eqn:Hemb; simpl in *; [|discriminate].
    rewrite Hemb in Hnone. simpl in Hnone.
    destruct (truthy (prop (prop pkg "exp") "sdkVersion")); [|discriminate].
    simpl in Hnone.
    destruct (truthy (prop pkg "name")); [|discriminate]. simpl in Hnone.
    destruct (truthy (prop pkg "version")); [auto|discriminate].
Qed.

Lemma publish_descriptor_from_resolved_config_witness :
  exists info,
    getPublishInfoAsync demo "/app" both_manifests = Return info
    /\ sdkVersion (args info) = VStr "8.0.0".
Proof.
  destruct (getPublishInfoAsync demo "/app" both_manifests) as [info|e] eqn:Hrun;
    [|vm_compute in Hrun; discriminate].
  exists info. split; [reflexivity|].
  destruct (publish_descriptor_from_resolved_config demo "/app" both_manifests info Hrun)
    as (cfg & Hcfg & -> & _).
  vm_compute in Hcfg. injection Hcfg as <-. reflexivity.
Defined.

(** ** More properties of scaffolding and of the template cache *)

(** X17. Options that are an object without a usable name (no [name], a
    [name] that is no string, or an empty one) are refused with the
    INVALID_OPTIONS error before anything is looked at or done: the world
    is as it was. *)
Theorem createNewExp_refuses_options_without_name
  (P : Platform) (selectedDir : string) (extraPackageJsonFields : value)
  (fields : list (string * value)) (w : World) :
  (forall s, s <> EmptyString -> assoc "name" fields <> Some (VStr s)) ->
  exists message,
    createNewExpAsync P selectedDir extraPackageJsonFields (VObj fields) w
    = (Throw (XDLError INVALID_OPTIONS message), w).
Proof.
  intros Hname. unfold createNewExpAsync, joi_validate_opts.
  destruct (assoc "name" fields) as [[| | | |s| |]|] eqn:Ha;
    try (unfold_M; simpl; eauto; fail).
  destruct (String.eqb s EmptyString) eqn:Hs; [unfold_M; simpl; eauto|].
  exfalso. apply (Hname s); [|reflexivity].
  intros ->. discriminate.
Qed.

Lemma createNewExp_refuses_options_without_name_witness :
  exists message,
    createNewExpAsync demo "/work" (VObj []) (VObj [("title", VStr "foo")]) empty_world
    = (Throw (XDLError INVALID_OPTIONS message), empty_world).
Proof.
  apply createNewExp_refuses_options_without_name. intros s _. discriminate.
Defined.

(** X18. When the version of a template cannot be had from the registry
    (the registry fails, or it has no such template), [_downloadStarterAppAsync]
    fails with that error and has done nothing: no cache directory made,
    nothing downloaded. *)
Theorem downloadStarterApp_registry_failure
  (P : Platform) (name : string) (e : exn) (w : World) :
  registry_version P name = Throw e ->
  _downloadStarterAppAsync P name w = (Throw e, w).
Proof.
  unfold registry_version, _downloadStarterAppAsync.
  unfold mbind, outcome_bind, M_bind, lift.
  destruct (of_reply (Api_versionsAsync P)) as [versions|]; [|intros [= <-]; reflexivity].
  destruct (member versions "starterApps") as [apps|]; [|intros [= <-]; reflexivity].
  destruct (member apps name) as [app|]; [|intros [= <-]; reflexivity].
  intros ->. reflexivity.
Qed.

Lemma downloadStarterApp_registry_failure_witness :
  _downloadStarterAppAsync gallery "default" empty_world
  = (Throw (External "getaddrinfo ENOTFOUND"), empty_world).
Proof. apply downloadStarterApp_registry_failure. reflexivity. Defined.

(** X19. When the archive is not cached and the download fails,
    [_downloadStarterAppAsync] fails with the downloader's error after that
    one attempt, and the disk is as the downloader left it. *)
Theorem downloadStarterApp_download_failure
  (P : Platform) (name : string) (version : value) (w : World) (what : string) (d' : files) :
  registry_version P name = Return version ->
  cache_dir_usable P (disk w) ->
  disk w !! cached_path P name version = None ->
  cached_path P name version <> cache_dir P ->
  download_run P (starter_apps_url +:+ starterApp_filename name version) (cache_dir P)
               (disk (with_cache_dir P w)) = (Failed what, d') ->
  exists w',
    _downloadStarterAppAsync P name w = (Throw (External what), w')
    /\ disk w' = d'
    /\ downloads (log w') = S (downloads (log w)).
Proof.
  intros Hreg Huse Hmiss Hne Hdl.
  rewrite (downloadStarterApp_miss P name version w _ _ Hreg Huse Hmiss Hne Hdl).
  eexists. split; [reflexivity|]. split; [reflexivity|]. simpl.
  destruct (starterAppCacheDirectory_run P w Huse) as (_ & _ & Hlog & _).
  rewrite downloads_app, Hlog. simpl. lia.
Qed.

Lemma downloadStarterApp_download_failure_witness :
  exists w',
    _downloadStarterAppAsync flaky "default" empty_world
    = (Throw (External "connect ETIMEDOUT"), w')
    /\ downloads (log w') = 1%nat.
Proof.
  destruct (downloadStarterApp_download_failure flaky "default" (VStr "1.0.0") empty_world
              "connect ETIMEDOUT" (disk (with_cache_dir flaky empty_world)))
    as (w' & Hrun & _ & Hcount).
  - reflexivity.
  - intros body. vm_compute. discriminate.
  - vm_compute. reflexivity.
  - vm_compute. discriminate.
  - reflexivity.
  - exists w'. split; [exact Hrun|exact Hcount].
Defined.

(** [createNewExpAsync] once its options have passed and nothing is at the
    target: the directory is made, the first notification sent and the
    archive asked for. *)
Lemma createNewExp_started
  (P : Platform) (selectedDir name : string) (extraPackageJsonFields : value) (w : World) :
  name <> EmptyString ->
  disk w !! path_join P selectedDir name = None ->
  let root := path_join P selectedDir name in
  let w1 := set_disk (<[root := Dir]> (disk w))
              (set_log (log w ++ [MadeDir root; Notified "Downloading project files..."]) w) in
  forall e w2,
    _downloadStarterAppAsync P "default" w1 = (Throw e, w2) ->
    createNewExpAsync P selectedDir extraPackageJsonFields (VObj [("name", VStr name)]) w
    = (Throw e, w2).
Proof.
  intros Hname Hfree. cbv zeta. intros e w2 Hdl.
  unfold createNewExpAsync, joi_validate_opts. simpl.
  destruct (String.eqb name EmptyString) eqn:Hempty.
  { apply String.eqb_eq in Hempty. contradiction. }
  unfold_M. simpl. unfold fs_statSync. rewrite Hfree.
  unfold mkdirp. rewrite Hfree. simpl.
  unfold set_disk, set_log in *. simpl in *. rewrite <- app_assoc. simpl.
  rewrite Hdl. reflexivity.
Qed.

Lemma createNewExp_taken
  (P : Platform) (selectedDir name : string) (extraPackageJsonFields : value) (w : World) :
  name <> EmptyString ->
  is_Some (disk w !! path_join P selectedDir name) ->
  createNewExpAsync P selectedDir extraPackageJsonFields (VObj [("name", VStr name)]) w
  = (Throw (XDLError DIRECTORY_ALREADY_EXISTS
              (directory_exists_message (path_join P selectedDir name))), w).
Proof.
  intros Hname [n Hn]. unfold createNewExpAsync, joi_validate_opts. simpl.
  destruct (String.eqb name EmptyString) eqn:Hempty.
  { apply String.eqb_eq in Hempty. contradiction. }
  unfold_M. simpl. unfold fs_statSync. rewrite Hn. reflexivity.
Qed.

(** X20. A failure after the target directory was made leaves it there, and
    with it the next attempt is refused.  When the registry cannot give the
    version of the template, [createNewExpAsync] for a free target fails
    with the registry's error, the target is now a directory, nothing was
    downloaded or written, and the same call again fails with
    DIRECTORY_ALREADY_EXISTS. *)
Theorem createNewExp_failure_blocks_retry
  (P : Platform) (selectedDir name : string) (extraPackageJsonFields : value)
  (e : exn) (w : World) :
  name <> EmptyString ->
  disk w !! path_join P selectedDir name = None ->
  registry_version P "default" = Throw e ->
  let root := path_join P selectedDir name in
  let opts := VObj [("name", VStr name)] in
  exists w1,
    createNewExpAsync P selectedDir extraPackageJsonFields opts w = (Throw e, w1)
    /\ disk w1 = <[root := Dir]> (disk w)
    /\ log w1 = (log w ++ [MadeDir root; Notified "Downloading project files..."])%list
    /\ createNewExpAsync P selectedDir extraPackageJsonFields opts w1
       = (Throw (XDLError DIRECTORY_ALREADY_EXISTS (directory_exists_message root)), w1).
Proof.
  intros Hname Hfree Hreg root opts.
  eexists. split.
  - apply (createNewExp_started P selectedDir name extraPackageJsonFields w Hname Hfree).
    apply (downloadStarterApp_registry_failure P "default" e _ Hreg).
  - split; [reflexivity|]. split; [reflexivity|].
    apply createNewExp_taken; [exact Hname|].
    simpl. rewrite lookup_insert_eq. eauto.
Qed.

Lemma createNewExp_failure_blocks_retry_witness :
  exists w1,
    createNewExpAsync gallery "/work" (VObj []) (VObj [("name", VStr "foo")]) empty_world
    = (Throw (External "getaddrinfo ENOTFOUND"), w1)
    /\ createNewExpAsync gallery "/work" (VObj []) (VObj [("name", VStr "foo")]) w1
       = (Throw (XDLError DIRECTORY_ALREADY_EXISTS
                   "That directory already exists. Please choose a different parent directory or project name. (/work/foo)"),
          w1).
Proof.
  destruct (createNewExp_failure_blocks_retry gallery "/work" "foo" (VObj [])
              (External "getaddrinfo ENOTFOUND") empty_world)
    as (w1 & Hrun & _ & _ & Hagain).
  - discriminate.
  - vm_compute. reflexivity.
  - reflexivity.
  - exists w1. split; [exact Hrun|exact Hagain].
Defined.

Lemma M_bind_returned {A B} (m : M A) (k : A -> M B) (w w' : World) (b : B) :
  (m ≫= k) w = (Return b, w') ->
  exists a w1, m w = (Return a, w1) /\ k a w1 = (Return b, w').
Proof.
  unfold mbind, M_bind. destruct (m w) as [[a|e] w1]; [eauto|discriminate].
Qed.

Lemma assoc_set_field (k' k : string) (v : value) (l : list (string * value)) :
  assoc k' (set_field k v l) = if String.eqb k' k then Some v else assoc k' l.
Proof.
  induction l as [|[k0 v0] rest IH]; simpl; [reflexivity|].
  destruct (String.eqb k k0) eqn:Hk; simpl.
  - apply String.eqb_eq in Hk as <-. destruct (String.eqb k' k); reflexivity.
  - rewrite IH. destruct (String.eqb k' k0) eqn:Hk0; [|reflexivity].
    apply String.eqb_eq in Hk0 as ->. rewrite String.eqb_sym, Hk. reflexivity.
Qed.

Lemma fs_writeFile_returned (path body : string) (w w' : World) (u : unit) :
  fs_writeFile path body w = (Return u, w') ->
  log w' = (log w ++ [WroteFile path body])%list.
Proof.
  unfold fs_writeFile.
  destruct (disk w !! path) as [[|old]|]; intros H; try discriminate;
    injection H as _ <-; reflexivity.
Qed.

Lemma read_disk_returned {A} (f : files -> outcome A) (w w' : World) (a : A) :
  read_disk f w = (Return a, w') -> w' = w.
Proof. unfold read_disk. intros [= _ <-]. reflexivity. Qed.

(** X21. When [createNewExpAsync] returns, it returns the joined path, at
    which nothing was before, and the last things it did were to write
    package.json, main.js and exp.json of the project, in this order.  The
    package.json it wrote, when an object, has the project's name, version
    0.0.0 and the description Hello Exponent!, whatever the template and
    the extra fields said about them. *)
Theorem createNewExp_returned
  (P : Platform) (selectedDir : string) (extraPackageJsonFields opts : value)
  (w w' : World) (root : string) :
  createNewExpAsync P selectedDir extraPackageJsonFields opts w = (Return root, w') ->
  exists name data mainJs expJson earlier,
    prop opts "name" = VStr name
    /\ root = path_join P selectedDir name
    /\ disk w !! root = None
    /\ log w' = (earlier ++
                 [WroteFile (path_join P root "package.json") (JSON_stringify P data);
                  WroteFile (path_join P root "main.js") mainJs;
                  WroteFile (path_join P root "exp.json") expJson])%list
    /\ (forall fields, data = VObj fields ->
          prop data "name" = VStr name
          /\ prop data "version" = VStr "0.0.0"
          /\ prop data "description" = VStr "Hello Exponent!").
Proof.
  intros Hrun. unfold createNewExpAsync in Hrun.
  apply M_bind_returned in Hrun as ([] & w0 & Hvalid & Hrun).
  assert (w0 = w) as ->.
  { unfold try_catch, lift, throw in Hvalid.
    destruct (joi_validate_opts opts); [congruence|discriminate]. }
  clear Hvalid.
  apply M_bind_returned in Hrun as (name_value & w1 & Hname & Hrun).
  unfold lift in Hname. injection Hname as Hname <-.
  destruct name_value as [| | | |name| |]; try discriminate.
  assert (Hopts : prop opts "name" = VStr name).
  { unfold member in Hname. destruct (nullish opts); congruence. }
  apply M_bind_returned in Hrun as (fileExists & w2 & Hstat & Hrun).
  destruct fileExists; [discriminate|].
  assert (Hfree : disk w !! path_join P selectedDir name = None /\ w2 = w).
  { unfold try_catch, mbind, M_bind, mret, M_ret, fs_statSync in Hstat.
    destruct (disk w !! path_join P selectedDir name); [discriminate|].
    injection Hstat as <-. auto. }
  destruct Hfree as [Hfree ->]. clear Hstat.
  repeat (apply M_bind_returned in Hrun as (? & ? & ? & Hrun)).
  unfold mret, M_ret in Hrun. injection Hrun as <- <-.
  repeat match goal with
         | H : fs_writeFile _ _ _ = (Return _, _) |- _ => apply fs_writeFile_returned in H
         | H : JsonFile_writeAsync _ _ _ _ = (Return _, _) |- _ =>
             unfold JsonFile_writeAsync in H; simpl in H; apply fs_writeFile_returned in H
         | H : read_disk _ _ = (Return _, _) |- _ => apply read_disk_returned in H; subst
         | H : lift _ _ = (Return _, _) |- _ => unfold lift in H; injection H as H <-
         end.
  exists name, x17. eexists _, _, (log x12). split; [exact Hopts|]. split; [reflexivity|].
  split; [exact Hfree|]. split.
  - rewrite H13, H11, H9, <- !app_assoc. reflexivity.
  - intros fields ->. unfold Object_assign in H8.
    destruct x15 as [| | | | | |target]; try discriminate;
      try (injection H8 as H8; discriminate).
    injection H8 as <-. cbn [fold_left fst snd prop].
    rewrite !assoc_set_field. simpl. auto.
Qed.

Lemma createNewExp_returned_witness :
  let extra := VObj [("name", VStr "other"); ("version", VStr "9.9.9")] in
  let opts := VObj [("name", VStr "foo")] in
  let w' := (createNewExpAsync demo_unpacking "/work" extra opts empty_world).2 in
  exists name data mainJs expJson earlier,
    prop opts "name" = VStr name
    /\ "/work/foo" = path_join demo_unpacking "/work" name
    /\ disk empty_world !! "/work/foo" = None
    /\ log w' = (earlier ++
                 [WroteFile (path_join demo_unpacking "/work/foo" "package.json")
                    (JSON_stringify demo_unpacking data);
                  WroteFile (path_join demo_unpacking "/work/foo" "main.js") mainJs;
                  WroteFile (path_join demo_unpacking "/work/foo" "exp.json") expJson])%list
    /\ (forall fields, data = VObj fields ->
          prop data "name" = VStr name
          /\ prop data "version" = VStr "0.0.0"
          /\ prop data "description" = VStr "Hello Exponent!").
Proof.
  cbv zeta.
  apply (createNewExp_returned demo_unpacking "/work"
           (VObj [("name", VStr "other"); ("version", VStr "9.9.9")])
           (VObj [("name", VStr "foo")]) empty_world).
  destruct (createNewExpAsync _ _ _ _ _) as [result w'] eqn:Hrun.
  simpl. f_equal.
  apply (f_equal fst) in Hrun. vm_compute in Hrun. symmetry. exact Hrun.
Defined.

(** ** More properties of the generated identifiers *)

Lemma placeholder_username_generated_once_witness :
  exists w2,
    twice (getLoggedOutPlaceholderUsernameAsync demo) empty_world
    = (Return (VStr "anonymous-0", VStr "anonymous-0"), w2)
    /\ draws w2 = 1%nat
    /\ stored_placeholder w2 = VStr "anonymous-0".
Proof.
  apply (placeholder_username_generated_once demo empty_world); reflexivity.
Defined.
